(** * ContextMenu: the action-orchestration protocol of the chat-tree menu

    A shallow embedding of [src/components/ContextMenu.tsx].  The component's
    asynchronous handlers ([selectBranch], [editMessage], [respondToMessage],
    [handleSend], [startSubchat], [handleActionClick]) are written in a small
    state-and-exception monad: the state is the record of everything the
    handler did to the outside world, an exception is a rejected promise or
    a thrown [Error].  The orchestrator behind [chrome.runtime.sendMessage]
    and the caller-supplied planner are oracles that may answer differently
    every time they are asked; a send may resolve with a response object,
    resolve with undefined or null, or reject.  The planner and the notifiers
    of the props return (they do not throw). *)

From Stdlib Require Import List String Ascii NArith Bool.
From Stdlib Require Import Arith Lia.
From ExtLib Require Import Structures.Monad Structures.MonadExc.
Import ListNotations.
Import MonadNotation.
Local Open Scope monad_scope.

Set Implicit Arguments.

(** ** JavaScript strings *)

Module Js.

(** A JavaScript string is a sequence of UTF-16 code units. *)
Definition jsstring := list N.

(** A string literal of the source (ASCII only). *)
Definition lit (s : string) : jsstring :=
  map N_of_ascii (list_ascii_of_string s).

Fixpoint eqb (a b : jsstring) : bool :=
  match a, b with
  | [], [] => true
  | x :: a', y :: b' => N.eqb x y && eqb a' b'
  | _, _ => false
  end.

(** ECMAScript WhiteSpace and LineTerminator code points, the ones
    [String.prototype.trim] strips. *)
Definition is_whitespace (c : N) : bool :=
  (  N.eqb c 0x09 || N.eqb c 0x0A || N.eqb c 0x0B || N.eqb c 0x0C
  || N.eqb c 0x0D || N.eqb c 0x20 || N.eqb c 0xA0 || N.eqb c 0x1680
  || (N.leb 0x2000 c && N.leb c 0x200A)
  || N.eqb c 0x2028 || N.eqb c 0x2029 || N.eqb c 0x202F
  || N.eqb c 0x205F || N.eqb c 0x3000 || N.eqb c 0xFEFF)%bool.

Fixpoint trimStart (s : jsstring) : jsstring :=
  match s with
  | [] => []
  | c :: rest => if is_whitespace c then trimStart rest else s
  end.

Definition trimEnd (s : jsstring) : jsstring := rev (trimStart (rev s)).

Definition trim (s : jsstring) : jsstring := trimEnd (trimStart s).

(** The empty string literal. *)
Definition empty : jsstring := [].

(** ToBoolean on a string: only the empty string is falsy. *)
Definition truthy (s : jsstring) : bool :=
  match s with [] => false | _ :: _ => true end.

(** ToBoolean on a possibly undefined string. *)
Definition truthy_opt (s : option jsstring) : bool :=
  match s with None => false | Some s => truthy s end.

(** [s || ''] on a possibly undefined string. *)
Definition or_empty (s : option jsstring) : jsstring :=
  match s with
  | None => empty
  | Some s => if truthy s then s else empty
  end.

(** [s === l] for a possibly undefined [s] and a literal [l]. *)
Definition strict_eq (s : option jsstring) (l : string) : bool :=
  match s with None => false | Some s => eqb s (lit l) end.

(** A template-literal hole [${s}] for a string that may be undefined:
    undefined prints as its name.  ([None] is undefined only; a null, which
    would print as null, is not a value of the model.) *)
Definition interpolate (s : option jsstring) : jsstring :=
  match s with None => lit "undefined" | Some s => s end.

(** Blank: nothing but white space (the empty string included). *)
Definition blank (s : jsstring) : bool := forallb is_whitespace s.

End Js.

Import Js.

(** ** Data model *)

(** Navigation steps are opaque to the component: it passes on what the
    planner returned.  One step is kept in its serialised form. *)
Definition NavigationStep := jsstring.

(** What [props.onNodeClick] may return: [None] is undefined or null, [Some l]
    is an array, which is truthy in JavaScript whatever its length. *)
Definition Plan := option (list NavigationStep).

(** The messages passed to [chrome.runtime.sendMessage]. *)
Inductive Command : Type :=
| ExecuteSteps (steps : list NavigationStep) (requireCompletion : bool)
| EditMessage (messageId : option jsstring) (message : jsstring)
              (requireCompletion : bool)
| RespondToMessage (childrenIds : option (list jsstring)) (message : jsstring)
                   (requireCompletion : bool)
| GoToTarget (targetId : jsstring)
| CreateSubchat (parentMessageId : option jsstring).

(** The object a send resolves with; the handlers read these four fields.
    A [completed] or [success] that is missing or falsy reads as [false];
    [None] is a missing (undefined) [error] or [subchatId]. *)
Record Response : Type := mkResponse {
  completed : bool;
  error : option jsstring;
  success : bool;
  subchatId : option jsstring
}.

(** A send resolves with a response object, rejects (transport failure), or
    resolves with no object at all: undefined or null, as when nothing
    answers the message. *)
Inductive Outcome : Type :=
| Resolves (r : Response)
| Rejects (reason : jsstring)
| ResolvesNullish.

(** Every call the handlers make on their collaborators, in program order. *)
Inductive Call : Type :=
| SendMessage (c : Command)          (* chrome.runtime.sendMessage(c) *)
| OnNodeClick (id : jsstring)        (* props.onNodeClick(id), the planner *)
| OnRefresh                          (* props.onRefresh(), structural refresh *)
| RefreshNodes                       (* props.refreshNodes(), full refresh *)
| SetTimeout (ms : N)                (* await new Promise(r => setTimeout(r, ms)) *)
| SetShowInput (b : bool)            (* setShowInput(b) *)
| SetInputValue (s : jsstring)       (* setInputValue(s) *)
| TabsCreate (url : jsstring) (active : bool).  (* chrome.tabs.create *)

(** What a rejected promise or a [throw] carries; [TypeError p] is the
    error of reading property [p] of undefined or null. *)
Inductive JsError : Type :=
| TransportError (reason : jsstring)
| ErrorObject (msg : string)
| TypeError (property : string).

(** One [console.error(label, arg)] line. *)
Inductive LogArg : Type :=
| LogError (e : JsError)
| LogValue (v : option jsstring).

Record LogLine : Type := mkLog { label : string; arg : LogArg }.

(** The two [useState] cells of the component (the Pending Edit State). *)
Record PendingEdit : Type := mkPending {
  showInput : bool;
  inputValue : jsstring
}.

(** Modelled from the spec: the declaration of [ContextMenuProps] in
    [types/interfaces], which is absent; the fields are the ones the
    component reads.  The planner [onNodeClick] sees the calls made so far,
    so it may answer differently at each call.  The notifiers [onRefresh] and
    [refreshNodes] return nothing and are observed as calls. *)
Record ContextMenuProps : Type := mkProps {
  messageId : option jsstring;
  message : option jsstring;
  childrenIds : option (list jsstring);
  role : option jsstring;
  hidden : bool;
  onNodeClick : list Call -> jsstring -> Plan
}.

(** The orchestrator behind the Command Channel: its answer to a command may
    depend on everything that was called before. *)
Record Orchestrator : Type := mkOrchestrator {
  respond : list Call -> Command -> Outcome
}.

(** ** The monad of asynchronous handlers *)

Record World : Type := mkWorld {
  calls : list Call;
  console : list LogLine;
  pending : PendingEdit
}.

Inductive Completion (A : Type) : Type :=
| Fulfilled (a : A)
| Threw (e : JsError).

Arguments Threw {A} e.

Definition Async (A : Type) : Type := World -> Completion A * World.

#[global] Instance Monad_Async : Monad Async := {
  ret := fun A (a : A) w => (Fulfilled a, w);
  bind := fun A B (m : Async A) (k : A -> Async B) w =>
    match m w with
    | (Fulfilled a, w') => k a w'
    | (Threw e, w') => (Threw e, w')
    end
}.

#[global] Instance Exc_Async : MonadExc JsError Async := {
  raise := fun A e w => (Threw e, w);
  catch := fun A (body : Async A) (handler : JsError -> Async A) w =>
    match body w with
    | (Fulfilled a, w') => (Fulfilled a, w')
    | (Threw e, w') => handler e w'
    end
}.

(** What an awaited send evaluates to: the response object, or [None] for
    undefined or null. *)
Definition Reply : Type := option Response.

(** The object behind a reply, as the read of its property [property] needs
    it: the read throws on undefined and null. *)
Definition read (property : string) (reply : Reply) : Async Response :=
  match reply with
  | Some r => ret r
  | None => raise (TypeError property)
  end.

Definition record (c : Call) (w : World) : World :=
  mkWorld (calls w ++ [c]) (console w) (pending w).

Definition call (c : Call) : Async unit :=
  fun w => (Fulfilled tt, record c w).

Definition console_error (l : string) (a : LogArg) : Async unit :=
  fun w => (Fulfilled tt,
            mkWorld (calls w) (console w ++ [mkLog l a]) (pending w)).

Definition setShowInput (b : bool) : Async unit :=
  fun w => (Fulfilled tt,
            mkWorld (calls w ++ [SetShowInput b]) (console w)
                    (mkPending b (inputValue (pending w)))).

Definition setInputValue (s : jsstring) : Async unit :=
  fun w => (Fulfilled tt,
            mkWorld (calls w ++ [SetInputValue s]) (console w)
                    (mkPending (showInput (pending w)) s)).

(** The world in which nothing has happened yet. *)
Definition start (p : PendingEdit) : World := mkWorld [] [] p.

(** ** The component *)

Section ContextMenu.

Variable chrome : Orchestrator.
Variable props : ContextMenuProps.

(** The draft text captured by the closures of the current render. *)
Variable draft : jsstring.

(** [await chrome.runtime.sendMessage(c)] *)
Definition sendMessage (c : Command) : Async Reply :=
  fun w =>
    match respond chrome (calls w) c with
    | Resolves r => (Fulfilled (Some r), record (SendMessage c) w)
    | ResolvesNullish => (Fulfilled None, record (SendMessage c) w)
    | Rejects reason => (Threw (TransportError reason), record (SendMessage c) w)
    end.

(** [props.onNodeClick(id)] *)
Definition plan (id : jsstring) : Async Plan :=
  fun w => (Fulfilled (onNodeClick props (calls w) id), record (OnNodeClick id) w).

Definition selectBranch : Async unit :=
  match messageId props with
  | None => ret tt
  | Some id =>
    if negb (truthy id) then ret tt else
    steps <- plan id ;;
    match steps with
    | None => ret tt
    | Some steps =>
      catch
        (execResponse <- sendMessage (ExecuteSteps steps true) ;;
         execResponse <- read "completed" execResponse ;;
         (if negb (completed execResponse)
          then raise (ErrorObject "Background operation did not complete successfully")
          else ret tt) ;;
         call OnRefresh ;;
         _ <- sendMessage (GoToTarget id) ;;
         ret tt)
        (fun error => console_error "Error executing steps:" (LogError error))
    end
  end.

Definition editMessage : Async unit :=
  (if hidden props then selectBranch else ret tt) ;;
  response <- sendMessage (EditMessage (messageId props) draft true) ;;
  response <- read "completed" response ;;
  if negb (completed response)
  then console_error "Edit message failed:" (LogValue (error response))
  else
    call (SetTimeout 2000) ;;
    call RefreshNodes.

Definition respondToMessage : Async unit :=
  (if hidden props then selectBranch else ret tt) ;;
  response <- sendMessage (RespondToMessage (childrenIds props) draft true) ;;
  response <- read "completed" response ;;
  if negb (completed response)
  then console_error "Response message failed:" (LogValue (error response))
  else
    call (SetTimeout 2000) ;;
    call RefreshNodes.

Definition handleSend : Async unit :=
  if negb (truthy (trim draft)) then ret tt else
  selectBranch ;;
  (if strict_eq (role props) "user" then editMessage
   else if strict_eq (role props) "assistant" then respondToMessage
   else ret tt) ;;
  setShowInput false ;;
  setInputValue empty ;;
  call RefreshNodes.

Definition subchatUrl (subchat : option jsstring) : jsstring :=
  lit "https://chatgpt.com/?subchat_parent=" ++ interpolate (messageId props)
  ++ lit "&subchat_id=" ++ interpolate subchat.

Definition startSubchat : Async unit :=
  catch
    (response <- sendMessage (CreateSubchat (messageId props)) ;;
     response <- read "success" response ;;
     if success response
     then call (TabsCreate (subchatUrl (subchatId response)) true)
     else ret tt)
    (fun error => console_error "Error starting subchat:" (LogError error)).

Definition handleActionClick : Async unit :=
  (if strict_eq (role props) "user"
   then setInputValue (or_empty (message props))
   else setInputValue empty) ;;
  setShowInput true.

(** The initial value of the two state cells (the [useState] calls). *)
Definition initialState : PendingEdit :=
  mkPending false
    (if strict_eq (role props) "user" then or_empty (message props) else empty).

End ContextMenu.

Unset Implicit Arguments.

(** ** Observations on a run *)

(** The commands among a list of calls, in order. *)
Definition sends (l : list Call) : list Command :=
  flat_map (fun c => match c with SendMessage m => [m] | _ => [] end) l.

Definition is_navigation (c : Command) : bool :=
  match c with ExecuteSteps _ _ | GoToTarget _ => true | _ => false end.

Definition is_mutation (c : Command) : bool :=
  match c with EditMessage _ _ _ | RespondToMessage _ _ _ => true | _ => false end.

Definition is_refresh (c : Call) : bool :=
  match c with OnRefresh | RefreshNodes => true | _ => false end.

(** Did the send resolve with [completed] set? *)
Definition confirms (o : Outcome) : bool :=
  match o with
  | Resolves r => completed r
  | Rejects _ | ResolvesNullish => false
  end.

(** Calls of branch selection only: planner queries, the structural-refresh
    notifier and navigation commands; no full refresh, no timer, no state
    update, no mutation command. *)
Definition navigation_only (l : list Call) : bool :=
  forallb (fun c => match c with
                    | OnNodeClick _ | OnRefresh => true
                    | SendMessage m => is_navigation m
                    | _ => false
                    end) l.

(** What a run of [selectBranch] on a planned node writes to the console:
    one line for the first failure it met, nothing when both sends went
    through. *)
Definition branch_log (execOutcome gotoOutcome : Outcome) : list LogLine :=
  match execOutcome with
  | Rejects reason =>
      [mkLog "Error executing steps:" (LogError (TransportError reason))]
  | ResolvesNullish =>
      [mkLog "Error executing steps:" (LogError (TypeError "completed"))]
  | Resolves r =>
      if completed r
      then match gotoOutcome with
           | Rejects reason =>
               [mkLog "Error executing steps:" (LogError (TransportError reason))]
           | Resolves _ | ResolvesNullish => []
           end
      else [mkLog "Error executing steps:"
                  (LogError (ErrorObject "Background operation did not complete successfully"))]
  end.

(** The calls a run of [selectBranch] can add: nothing, the planner query
    alone, the query and the [executeSteps] send, or the whole sequence. *)
Inductive branch_calls (id : jsstring) : list Call -> Prop :=
| bc_absent : branch_calls id []
| bc_no_plan : branch_calls id [OnNodeClick id]
| bc_failed steps :
    branch_calls id [OnNodeClick id; SendMessage (ExecuteSteps steps true)]
| bc_selected steps :
    branch_calls id [OnNodeClick id; SendMessage (ExecuteSteps steps true);
                     OnRefresh; SendMessage (GoToTarget id)].

(** The two mutators of the component and the role dispatch of [handleSend]. *)
Inductive Mutator : Type := Edit | Respond.

Definition mutator (chrome : Orchestrator) (props : ContextMenuProps)
    (draft : jsstring) (m : Mutator) : Async unit :=
  match m with
  | Edit => editMessage chrome props draft
  | Respond => respondToMessage chrome props draft
  end.

(** The command a mutator sends. *)
Definition command_of (props : ContextMenuProps) (draft : jsstring)
    (m : Mutator) : Command :=
  match m with
  | Edit => EditMessage (messageId props) draft true
  | Respond => RespondToMessage (childrenIds props) draft true
  end.

(** The label of the line a mutator logs when its command did not complete. *)
Definition failure_label (m : Mutator) : string :=
  match m with
  | Edit => "Edit message failed:"
  | Respond => "Response message failed:"
  end.

(** Which mutator [handleSend] runs for the role of the props, if any. *)
Definition dispatch (props : ContextMenuProps) : option Mutator :=
  if strict_eq (role props) "user" then Some Edit
  else if strict_eq (role props) "assistant" then Some Respond
  else None.

(** The first two steps of [handleSend]: branch selection, then the mutator
    of the role, if the role has one. *)
Definition selectThenMutate (chrome : Orchestrator) (props : ContextMenuProps)
    (draft : jsstring) : Async unit :=
  selectBranch chrome props ;;
  match dispatch props with
  | Some m => mutator chrome props draft m
  | None => ret tt
  end.

(** The precondition step of both mutators. *)
Definition ensureVisible (chrome : Orchestrator) (props : ContextMenuProps)
    : Async unit :=
  if hidden props then selectBranch chrome props else ret tt.

(** Nothing to select at world [w]: the node reference is undefined or the
    empty string, or the planner, asked now, returns undefined. *)
Definition nothing_to_select (props : ContextMenuProps) (w : World) : Prop :=
  match messageId props with
  | None => True
  | Some id => truthy id = false \/ onNodeClick props (calls w) id = None
  end.

(** ** Concrete scenarios *)

Module Scenario.

Definition node : jsstring := lit "m1".
Definition step : NavigationStep := lit "click-next".
Definition text : jsstring := lit "fixed text".

Definition done : Response := mkResponse true None true (Some (lit "s1")).
Definition notDone : Response :=
  mkResponse false (Some (lit "busy")) false None.

(** An orchestrator that confirms every command. *)
Definition reliable : Orchestrator :=
  mkOrchestrator (fun _ _ => Resolves done).

(** An orchestrator that reports every command as not completed. *)
Definition refusing : Orchestrator :=
  mkOrchestrator (fun _ _ => Resolves notDone).

(** A channel that is down: every send rejects. *)
Definition unreachable : Orchestrator :=
  mkOrchestrator (fun _ _ => Rejects (lit "no receiver")).

(** Confirms everything, but the channel drops [goToTarget]. *)
Definition dropsGoTo : Orchestrator :=
  mkOrchestrator (fun _ c =>
    match c with
    | GoToTarget _ => Rejects (lit "no receiver")
    | _ => Resolves done
    end).

(** Confirms navigation, but the channel drops the mutation commands. *)
Definition dropsMutation : Orchestrator :=
  mkOrchestrator (fun _ c =>
    if is_mutation c then Rejects (lit "no receiver") else Resolves done).

Definition planner (p : Plan) : list Call -> jsstring -> Plan :=
  fun _ _ => p.

(** A visible user message whose branch needs one step. *)
Definition userNode : ContextMenuProps :=
  mkProps (Some node) (Some (lit "old text")) (Some [lit "c1"])
          (Some (lit "user")) false (planner (Some [step])).

(** The same node when it is marked hidden. *)
Definition hiddenUserNode : ContextMenuProps :=
  mkProps (Some node) (Some (lit "old text")) (Some [lit "c1"])
          (Some (lit "user")) true (planner (Some [step])).

(** An assistant message without text in the props. *)
Definition assistantNode : ContextMenuProps :=
  mkProps (Some node) None (Some [lit "c1"])
          (Some (lit "assistant")) false (planner (Some [step])).

(** A node already on the active branch: the planner returns nothing. *)
Definition selectedNode : ContextMenuProps :=
  mkProps (Some node) (Some (lit "old text")) None
          (Some (lit "user")) false (planner None).

(** A node for which the planner returns an array without elements. *)
Definition emptyPlanNode : ContextMenuProps :=
  mkProps (Some node) (Some (lit "old text")) None
          (Some (lit "user")) false (planner (Some [])).

(** No node reference at all. *)
Definition noNode : ContextMenuProps :=
  mkProps None None None (Some (lit "user")) false (planner (Some [step])).

Definition editing : PendingEdit := mkPending true text.

End Scenario.

(** ** The rendered menu *)

(** The input panel: the textarea and the Send button under it. *)
Record InputPanel : Type := mkPanel {
  value : jsstring;            (* value={inputValue} *)
  placeholder : string;        (* 'Edit message...' or 'Type your response...' *)
  sendDisabled : bool          (* disabled={!inputValue.trim()} *)
}.

(** What the JSX of the component renders conditionally; the Select and
    Start Subchat buttons are always there, position and class names are
    left out. *)
Record Menu : Type := mkMenu {
  roleBanner : option jsstring;    (* {props.role && <div>Role: ...</div>} *)
  actionButton : option string;    (* the edit/respond button, with its label *)
  inputPanel : option InputPanel   (* {showInput && ...} *)
}.

(** [props.childrenIds && props.childrenIds.length > 0] *)
Definition hasChildren (props : ContextMenuProps) : bool :=
  match childrenIds props with
  | Some (_ :: _) => true
  | _ => false
  end.

Definition render (props : ContextMenuProps) (st : PendingEdit) : Menu :=
  mkMenu
    (if truthy_opt (role props) then role props else None)
    (if hasChildren props
     then Some (if strict_eq (role props) "user"
                then "Edit this message"%string
                else "Respond to this message"%string)
     else None)
    (if showInput st
     then Some (mkPanel (inputValue st)
                        (if strict_eq (role props) "user"
                         then "Edit message..."%string
                         else "Type your response..."%string)
                        (negb (truthy (trim (inputValue st)))))
     else None).

(** The [onChange] handler of the textarea. *)
Definition handleChange (v : jsstring) : Async unit := setInputValue v.

(** The [handleSend] of the render of the current state: its closure holds
    the draft of that state. *)
Definition sendFromState (chrome : Orchestrator) (props : ContextMenuProps)
    : Async unit :=
  fun w => handleSend chrome props (inputValue (pending w)) w.

(** The [onKeyDown] handler of the textarea, for the key and the meta flag
    of the event.  [handleSend()] is started and not awaited: what it does
    happens, but a rejection of it does not reach the handler. *)
Definition handleKeyDown (chrome : Orchestrator) (props : ContextMenuProps)
    (draft : jsstring) (key : jsstring) (metaKey : bool) : Async unit :=
  if eqb key (lit "Enter") && metaKey
  then fun w => (Fulfilled tt, snd (handleSend chrome props draft w))
  else ret tt.

(** The three calls that end a completed [handleSend]. *)
Definition cleanupCalls : list Call :=
  [SetShowInput false; SetInputValue empty; RefreshNodes].

Definition is_planner_query (c : Call) : bool :=
  match c with OnNodeClick _ => true | _ => false end.

Definition is_full_refresh (c : Call) : bool :=
  match c with RefreshNodes => true | _ => false end.

Definition is_state_update (c : Call) : bool :=
  match c with SetShowInput _ | SetInputValue _ => true | _ => false end.

Definition is_tab (c : Call) : bool :=
  match c with TabsCreate _ _ => true | _ => false end.

(** Did the send resolve at all? *)
Definition delivered (o : Outcome) : bool :=
  match o with
  | Resolves _ | ResolvesNullish => true
  | Rejects _ => false
  end.

(** Further scenarios. *)
Module Cases.

(** A node whose role is neither 'user' nor 'assistant'. *)
Definition systemNode : ContextMenuProps :=
  mkProps (Some Scenario.node) (Some (lit "You are a helpful assistant"))
          (Some [lit "c1"]) (Some (lit "system")) false
          (Scenario.planner None).

(** A visible user message without a node reference. *)
Definition visibleNoReference : ContextMenuProps :=
  mkProps None (Some (lit "old text")) None (Some (lit "user")) false
          (Scenario.planner None).

(** A hidden assistant node. *)
Definition hiddenAssistantNode : ContextMenuProps :=
  mkProps (Some Scenario.node) None (Some [lit "c1"; lit "c2"])
          (Some (lit "assistant")) true
          (Scenario.planner (Some [Scenario.step])).

(** Nothing answers: every send resolves with undefined. *)
Definition silent : Orchestrator :=
  mkOrchestrator (fun _ _ => ResolvesNullish).

End Cases.

(** ** Basic facts *)

Ltac unfold_async :=
  unfold sendMessage, plan, call, console_error, setShowInput, setInputValue,
    record, ensureVisible, read;
  cbn [bind ret raise catch Monad_Async Exc_Async calls console pending
       showInput inputValue fst snd].

Lemma blank_trimStart s : blank s = true -> trimStart s = [].
Proof.
  induction s as [|c s IH]; cbn; [reflexivity|].
  intros H. apply andb_true_iff in H. destruct H as [Hc Hs].
  rewrite Hc. auto.
Qed.

Lemma blank_trim s : blank s = true -> trim s = [].
Proof.
  intros H. unfold trim, trimEnd. rewrite (blank_trimStart s H). reflexivity.
Qed.

Lemma sends_app a b : sends (a ++ b) = sends a ++ sends b.
Proof. unfold sends. apply flat_map_app. Qed.

(** [selectBranch] never rejects, leaves the Pending Edit State alone and
    only appends one of the four call sequences of [branch_calls]. *)
Lemma selectBranch_fulfils chrome props w :
  exists w', selectBranch chrome props w = (Fulfilled tt, w')
    /\ pending w' = pending w
    /\ exists l, calls w' = calls w ++ l
         /\ branch_calls (interpolate (messageId props)) l.
Proof.
  unfold selectBranch.
  destruct (messageId props) as [id|]; cbn [interpolate].
  2:{ exists w. unfold_async. repeat split. exists []. rewrite app_nil_r. split; [reflexivity|constructor]. }
  destruct (truthy id); cbn [negb].
  2:{ exists w. unfold_async. repeat split. exists []. rewrite app_nil_r. split; [reflexivity|constructor]. }
  unfold_async.
  destruct (onNodeClick props (calls w) id) as [steps|]; unfold_async.
  2:{ eexists. split; [reflexivity|]. cbn. split; [reflexivity|]. eexists. split; [reflexivity|constructor]. }
  destruct (respond chrome (calls w ++ [OnNodeClick id]) (ExecuteSteps steps true)) as [r|e|]; unfold_async.
  2,3:(eexists; split; [reflexivity|]; cbn; split; [reflexivity|];
       exists [OnNodeClick id; SendMessage (ExecuteSteps steps true)];
       rewrite <- app_assoc; split; [reflexivity|constructor]).
  destruct (completed r); cbn [negb]; unfold_async.
  2:{ eexists. split; [reflexivity|]. cbn. split; [reflexivity|].
      exists [OnNodeClick id; SendMessage (ExecuteSteps steps true)].
      rewrite <- app_assoc. split; [reflexivity|constructor]. }
  match goal with |- context [respond chrome ?h ?c] => destruct (respond chrome h c) end;
    unfold_async;
    (eexists; split; [reflexivity|]; cbn; split; [reflexivity|];
     exists [OnNodeClick id; SendMessage (ExecuteSteps steps true); OnRefresh; SendMessage (GoToTarget id)];
     rewrite <- !app_assoc; split; [reflexivity|constructor]).
Qed.

(** ** The Branch Selector *)

(** The run of [selectBranch] on a node for which the planner returns a
    plan, in full. *)
Lemma selectBranch_planned chrome props w id steps :
  messageId props = Some id ->
  truthy id = true ->
  onNodeClick props (calls w) id = Some steps ->
  let asked := calls w ++ [OnNodeClick id] in
  let exec := ExecuteSteps steps true in
  let goto := GoToTarget id in
  selectBranch chrome props w =
    (Fulfilled tt,
     mkWorld (asked ++ SendMessage exec ::
                (if confirms (respond chrome asked exec)
                 then [OnRefresh; SendMessage goto] else []))
             (console w ++
                branch_log (respond chrome asked exec)
                  (respond chrome (asked ++ [SendMessage exec; OnRefresh]) goto))
             (pending w)).
Proof.
  intros Hid Ht Hplan. cbv zeta.
  unfold selectBranch. rewrite Hid, Ht. cbn [negb]. unfold_async.
  rewrite Hplan. unfold_async.
  destruct (respond chrome (calls w ++ [OnNodeClick id]) (ExecuteSteps steps true))
    as [r|reason|]; unfold_async; cbn [confirms branch_log];
    [|reflexivity|reflexivity].
  destruct (completed r); cbn [negb]; unfold_async; [|reflexivity].
  rewrite <- !app_assoc. cbn [app].
  match goal with |- context [respond chrome ?h ?c] => destruct (respond chrome h c) end;
    unfold_async; rewrite <- ?app_assoc, ?app_nil_r; reflexivity.
Qed.

(** C1: when the node reference is present and the planner returns a plan
    (any array, so every non-empty plan), [selectBranch] asks the planner,
    sends exactly one [executeSteps] command, and then, only when that send
    resolved with [completed] set, calls the structural-refresh notifier and
    sends [goToTarget], in this order; otherwise it calls nothing more. *)
Theorem selectBranch_execute_then_goto chrome props w id steps :
  messageId props = Some id ->
  truthy id = true ->
  onNodeClick props (calls w) id = Some steps ->
  let asked := calls w ++ [OnNodeClick id] in
  let exec := ExecuteSteps steps true in
  exists w', selectBranch chrome props w = (Fulfilled tt, w')
    /\ calls w' = asked ++ SendMessage exec ::
         (if confirms (respond chrome asked exec)
          then [OnRefresh; SendMessage (GoToTarget id)] else []).
Proof.
  intros Hid Ht Hplan asked exec.
  eexists. split.
  - apply (selectBranch_planned chrome props w id steps Hid Ht Hplan).
  - reflexivity.
Qed.

Lemma selectBranch_execute_then_goto_witness :
  exists w', selectBranch Scenario.reliable Scenario.userNode
               (start Scenario.editing) = (Fulfilled tt, w')
    /\ calls w' =
         [OnNodeClick Scenario.node;
          SendMessage (ExecuteSteps [Scenario.step] true);
          OnRefresh; SendMessage (GoToTarget Scenario.node)].
Proof.
  apply (selectBranch_execute_then_goto Scenario.reliable Scenario.userNode
           (start Scenario.editing) Scenario.node [Scenario.step]);
    reflexivity.
Defined.

Lemma nothing_to_select_run chrome props w :
  nothing_to_select props w ->
  exists w', selectBranch chrome props w = (Fulfilled tt, w')
    /\ sends (calls w') = sends (calls w)
    /\ console w' = console w
    /\ pending w' = pending w.
Proof.
  unfold nothing_to_select, selectBranch.
  destruct (messageId props) as [id|].
  - intros [Hf|Hn].
    + rewrite Hf. cbn [negb]. exists w. unfold_async. auto.
    + destruct (truthy id); cbn [negb]; unfold_async.
      * rewrite Hn. unfold_async. eexists. split; [reflexivity|].
        cbn [calls console pending]. rewrite sends_app, app_nil_r. auto.
      * exists w. auto.
  - intros _. exists w. unfold_async. auto.
Qed.

(** C3 (amended): when the node reference is absent, or the planner returns
    an absent plan (undefined), [selectBranch] completes normally without
    sending any command, logging anything or touching the Pending Edit State;
    and two runs in succession, the planner returning no plan both times,
    send no command either. *)
Theorem selectBranch_nothing_to_select chrome props w :
  (nothing_to_select props w ->
   exists w', selectBranch chrome props w = (Fulfilled tt, w')
     /\ sends (calls w') = sends (calls w)
     /\ console w' = console w
     /\ pending w' = pending w)
  /\
  (nothing_to_select props w ->
   nothing_to_select props (snd (selectBranch chrome props w)) ->
   exists w1 w2,
     selectBranch chrome props w = (Fulfilled tt, w1)
     /\ selectBranch chrome props w1 = (Fulfilled tt, w2)
     /\ sends (calls w1) = sends (calls w)
     /\ sends (calls w2) = sends (calls w)).
Proof.
  split.
  - apply nothing_to_select_run.
  - intros H1 H2.
    destruct (nothing_to_select_run chrome props w H1) as (w1 & E1 & S1 & _ & _).
    rewrite E1 in H2. cbn [snd] in H2.
    destruct (nothing_to_select_run chrome props w1 H2) as (w2 & E2 & S2 & _ & _).
    exists w1, w2. repeat split; try assumption. congruence.
Qed.

Lemma selectBranch_nothing_to_select_witness :
  (exists w', selectBranch Scenario.reliable Scenario.noNode
                (start Scenario.editing) = (Fulfilled tt, w')
     /\ sends (calls w') = []
     /\ console w' = []
     /\ pending w' = Scenario.editing)
  /\
  (exists w1 w2,
     selectBranch Scenario.reliable Scenario.selectedNode
       (start Scenario.editing) = (Fulfilled tt, w1)
     /\ selectBranch Scenario.reliable Scenario.selectedNode w1
        = (Fulfilled tt, w2)
     /\ sends (calls w1) = []
     /\ sends (calls w2) = []).
Proof.
  split.
  - apply (proj1 (selectBranch_nothing_to_select Scenario.reliable
                    Scenario.noNode (start Scenario.editing))).
    exact I.
  - apply (proj2 (selectBranch_nothing_to_select Scenario.reliable
                    Scenario.selectedNode (start Scenario.editing))).
    + right. reflexivity.
    + right. reflexivity.
Defined.

(** C3 as stated fails for an empty plan: an array without elements is
    truthy, so the guard [if (!steps) return] lets it through and both
    commands are sent. *)
Lemma selectBranch_empty_plan_sends :
  onNodeClick Scenario.emptyPlanNode [] Scenario.node = Some []
  /\ selectBranch Scenario.reliable Scenario.emptyPlanNode
       (start Scenario.editing)
     = (Fulfilled tt,
        mkWorld [OnNodeClick Scenario.node;
                 SendMessage (ExecuteSteps [] true);
                 OnRefresh;
                 SendMessage (GoToTarget Scenario.node)]
                [] Scenario.editing)
  /\ sends (calls (snd (selectBranch Scenario.reliable Scenario.emptyPlanNode
                          (start Scenario.editing)))) <> [].
Proof.
  repeat split. discriminate.
Qed.

(** ** The Subchat Forker *)

(** C9: when the [createSubchat] send rejects, or resolves with [success]
    unset (or with no object at all), [startSubchat] completes normally, its
    only call is that send (no tab is created) and the Pending Edit State is
    untouched; a rejection is logged as one console line (so is the failed
    read of [success] on an answer that is no object), a refusal is not
    logged at all. *)
Theorem startSubchat_failure chrome props w :
  let cmd := CreateSubchat (messageId props) in
  let outcome := respond chrome (calls w) cmd in
  match outcome with
  | Resolves r => success r = false
  | Rejects _ => True
  | ResolvesNullish => True
  end ->
  startSubchat chrome props w =
    (Fulfilled tt,
     mkWorld (calls w ++ [SendMessage cmd])
             (console w ++
              match outcome with
              | Resolves _ => []
              | Rejects reason =>
                  [mkLog "Error starting subchat:"
                         (LogError (TransportError reason))]
              | ResolvesNullish =>
                  [mkLog "Error starting subchat:"
                         (LogError (TypeError "success"))]
              end)
             (pending w)).
Proof.
  intros cmd outcome. subst cmd outcome.
  unfold startSubchat. unfold_async.
  destruct (respond chrome (calls w) (CreateSubchat (messageId props)))
    as [r|reason|]; unfold_async.
  - intros Hs. rewrite Hs. unfold_async. rewrite app_nil_r. reflexivity.
  - intros _. reflexivity.
  - intros _. reflexivity.
Qed.

Lemma startSubchat_failure_witness :
  startSubchat Scenario.refusing Scenario.userNode (start Scenario.editing)
  = (Fulfilled tt,
     mkWorld [SendMessage (CreateSubchat (Some Scenario.node))] []
             Scenario.editing)
  /\
  startSubchat Scenario.unreachable Scenario.userNode (start Scenario.editing)
  = (Fulfilled tt,
     mkWorld [SendMessage (CreateSubchat (Some Scenario.node))]
             [mkLog "Error starting subchat:"
                    (LogError (TransportError (lit "no receiver")))]
             Scenario.editing).
Proof.
  split.
  - apply (startSubchat_failure Scenario.refusing Scenario.userNode
             (start Scenario.editing)).
    reflexivity.
  - apply (startSubchat_failure Scenario.unreachable Scenario.userNode
             (start Scenario.editing)).
    exact I.
Defined.

(** On success the tab is opened at the URL that embeds both identifiers. *)
Example startSubchat_success :
  calls (snd (startSubchat Scenario.reliable Scenario.userNode
                (start Scenario.editing)))
  = [SendMessage (CreateSubchat (Some Scenario.node));
     TabsCreate (lit "https://chatgpt.com/?subchat_parent=m1&subchat_id=s1")
                true].
Proof. reflexivity. Qed.

(** ** The Pending Edit State *)

(** C10: [handleActionClick] always completes, shows the input panel and
    sets the draft from the props alone: the node's message text when the
    role is 'user' (the empty string when the message is absent), the empty
    string for every other role. *)
Theorem handleActionClick_prefill props w :
  exists w', handleActionClick props w = (Fulfilled tt, w')
    /\ showInput (pending w') = true
    /\ inputValue (pending w') =
         (if strict_eq (role props) "user"
          then match message props with Some m => m | None => empty end
          else empty)
    /\ console w' = console w.
Proof.
  unfold handleActionClick.
  destruct (strict_eq (role props) "user"); unfold_async;
    (eexists; split; [reflexivity|]); cbn [pending showInput inputValue console];
    repeat split.
  unfold or_empty. destruct (message props) as [[|c m]|]; reflexivity.
Qed.

(** The same rule gives the draft the component starts with. *)
Lemma initialState_prefill props :
  inputValue (initialState props) =
    (if strict_eq (role props) "user"
     then match message props with Some m => m | None => empty end
     else empty)
  /\ showInput (initialState props) = false.
Proof.
  unfold initialState. cbn [inputValue showInput]. split; [|reflexivity].
  destruct (strict_eq (role props) "user"); [|reflexivity].
  unfold or_empty. destruct (message props) as [[|c m]|]; reflexivity.
Qed.

Example handleActionClick_user :
  pending (snd (handleActionClick Scenario.userNode (start (mkPending false empty))))
  = mkPending true (lit "old text").
Proof. reflexivity. Qed.

Example handleActionClick_assistant :
  pending (snd (handleActionClick Scenario.assistantNode
                  (start (mkPending false (lit "stale")))))
  = mkPending true empty.
Proof. reflexivity. Qed.

(** ** The Message Mutator *)

Lemma branch_calls_navigation id l :
  branch_calls id l -> navigation_only l = true.
Proof. destruct 1; reflexivity. Qed.

Lemma navigation_only_In l c :
  navigation_only l = true -> In c l ->
  c <> RefreshNodes /\ (forall ms, c <> SetTimeout ms)
  /\ (forall m, c = SendMessage m -> is_mutation m = false).
Proof.
  unfold navigation_only. rewrite forallb_forall. intros H Hin.
  specialize (H c Hin).
  destruct c as [m| | | | | | |]; try discriminate; repeat split;
    try discriminate.
  intros m' E. injection E as <-. destruct m; try discriminate; reflexivity.
Qed.

Lemma ensureVisible_fulfils chrome props w :
  exists w2, ensureVisible chrome props w = (Fulfilled tt, w2)
    /\ pending w2 = pending w
    /\ exists l, calls w2 = calls w ++ l /\ navigation_only l = true.
Proof.
  unfold ensureVisible. destruct (hidden props).
  - destruct (selectBranch_fulfils chrome props w) as (w' & E & P & l & C & B).
    exists w'. repeat split; try assumption.
    exists l. split; [assumption|]. eapply branch_calls_navigation; eassumption.
  - exists w. unfold_async. repeat split. exists []. rewrite app_nil_r. auto.
Qed.

(** What a mutator does once its precondition step has brought the world
    to [w2]: the outcomes of its send. *)
Lemma mutator_run chrome props draft m w w2 :
  ensureVisible chrome props w = (Fulfilled tt, w2) ->
  let cmd := command_of props draft m in
  mutator chrome props draft m w =
    match respond chrome (calls w2) cmd with
    | Resolves r =>
        if completed r
        then (Fulfilled tt,
              mkWorld (calls w2 ++ [SendMessage cmd; SetTimeout 2000; RefreshNodes])
                      (console w2) (pending w2))
        else (Fulfilled tt,
              mkWorld (calls w2 ++ [SendMessage cmd])
                      (console w2 ++ [mkLog (failure_label m) (LogValue (error r))])
                      (pending w2))
    | Rejects reason =>
        (Threw (TransportError reason),
         mkWorld (calls w2 ++ [SendMessage cmd]) (console w2) (pending w2))
    | ResolvesNullish =>
        (Threw (TypeError "completed"),
         mkWorld (calls w2 ++ [SendMessage cmd]) (console w2) (pending w2))
    end.
Proof.
  unfold ensureVisible. intros E. cbv zeta.
  destruct m; cbn [mutator command_of failure_label];
    [unfold editMessage | unfold respondToMessage];
    cbn [bind Monad_Async]; rewrite E; unfold_async;
    match goal with |- context [respond chrome ?h ?c] => destruct (respond chrome h c) as [r|reason|] end;
    unfold_async; try reflexivity;
    destruct (completed r); cbn [negb]; unfold_async;
    rewrite <- ?app_assoc; reflexivity.
Qed.

(** C5: when the mutation command of [editMessage] or [respondToMessage]
    resolves with [completed] unset, the mutator completes normally after
    logging one failure line; its calls are those of the optional branch
    selection followed by the mutation send, so the full refresh is never
    called and no settle delay is waited. *)
Theorem mutator_not_completed chrome props draft m w w2 r :
  ensureVisible chrome props w = (Fulfilled tt, w2) ->
  respond chrome (calls w2) (command_of props draft m) = Resolves r ->
  completed r = false ->
  exists pre,
    calls w2 = calls w ++ pre
    /\ mutator chrome props draft m w =
         (Fulfilled tt,
          mkWorld (calls w ++ pre ++ [SendMessage (command_of props draft m)])
                  (console w2 ++ [mkLog (failure_label m) (LogValue (error r))])
                  (pending w))
    /\ (forall c, In c (pre ++ [SendMessage (command_of props draft m)]) ->
         c <> RefreshNodes /\ forall ms, c <> SetTimeout ms).
Proof.
  intros E R C.
  destruct (ensureVisible_fulfils chrome props w) as (w2' & E' & P & pre & Hc & Hn).
  rewrite E in E'. injection E' as <-.
  exists pre. split; [assumption|]. split.
  - rewrite (mutator_run chrome props draft m w w2 E). cbv zeta.
    rewrite R, C, Hc, P, <- app_assoc. reflexivity.
  - intros c Hin. apply in_app_or in Hin. destruct Hin as [Hin|[<-|[]]].
    + destruct (navigation_only_In pre c Hn Hin) as (A & B & _). auto.
    + split; [discriminate|]. intros ms; discriminate.
Qed.

Lemma mutator_not_completed_witness :
  exists pre,
    calls (start Scenario.editing) = calls (start Scenario.editing) ++ pre
    /\ mutator Scenario.refusing Scenario.userNode Scenario.text Edit
         (start Scenario.editing) =
         (Fulfilled tt,
          mkWorld (calls (start Scenario.editing) ++ pre ++
                   [SendMessage (command_of Scenario.userNode Scenario.text Edit)])
                  (console (start Scenario.editing) ++
                   [mkLog (failure_label Edit) (LogValue (error Scenario.notDone))])
                  (pending (start Scenario.editing)))
    /\ (forall c, In c (pre ++ [SendMessage (command_of Scenario.userNode Scenario.text Edit)]) ->
         c <> RefreshNodes /\ forall ms, c <> SetTimeout ms).
Proof.
  apply (mutator_not_completed Scenario.refusing Scenario.userNode Scenario.text
           Edit (start Scenario.editing) (start Scenario.editing) Scenario.notDone);
    reflexivity.
Defined.

Example respondToMessage_not_completed :
  respondToMessage Scenario.refusing Scenario.assistantNode Scenario.text
    (start Scenario.editing)
  = (Fulfilled tt,
     mkWorld [SendMessage (RespondToMessage (Some [lit "c1"]) Scenario.text true)]
             [mkLog "Response message failed:" (LogValue (Some (lit "busy")))]
             Scenario.editing).
Proof. reflexivity. Qed.

Example editMessage_completed :
  calls (snd (editMessage Scenario.reliable Scenario.userNode Scenario.text
                (start Scenario.editing)))
  = [SendMessage (EditMessage (Some Scenario.node) Scenario.text true);
     SetTimeout 2000; RefreshNodes].
Proof. reflexivity. Qed.

(** ** The combined send flow *)

(** With a draft that is not blank, [handleSend] is branch selection and the
    mutator of the role, followed, unless one of them threw, by the three
    calls of the cleanup. *)
Lemma handleSend_run chrome props draft w :
  truthy (trim draft) = true ->
  handleSend chrome props draft w =
    match selectThenMutate chrome props draft w with
    | (Fulfilled _, w1) =>
        (Fulfilled tt,
         mkWorld (calls w1 ++ [SetShowInput false; SetInputValue empty; RefreshNodes])
                 (console w1) (mkPending false empty))
    | (Threw e, w1) => (Threw e, w1)
    end.
Proof.
  intros Ht. unfold handleSend, selectThenMutate, dispatch. rewrite Ht.
  cbn [negb bind Monad_Async].
  destruct (selectBranch chrome props w) as [[[]|e] w1]; [|reflexivity].
  destruct (strict_eq (role props) "user"); [|destruct (strict_eq (role props) "assistant")];
    cbn [mutator].
  - destruct (editMessage chrome props draft w1) as [[[]|e] w2]; [|reflexivity].
    unfold_async. rewrite <- !app_assoc. reflexivity.
  - destruct (respondToMessage chrome props draft w1) as [[[]|e] w2]; [|reflexivity].
    unfold_async. rewrite <- !app_assoc. reflexivity.
  - unfold_async. rewrite <- !app_assoc. reflexivity.
Qed.

(** C8: with a draft that is empty or all white space, [handleSend] returns
    at once: no call is made, hence no command sent, nothing is logged and
    the Pending Edit State is what it was. *)
Theorem handleSend_blank_draft chrome props draft w :
  blank draft = true ->
  handleSend chrome props draft w = (Fulfilled tt, w).
Proof.
  intros Hb. unfold handleSend. rewrite (blank_trim draft Hb). reflexivity.
Qed.

Lemma handleSend_blank_draft_witness :
  handleSend Scenario.reliable Scenario.userNode (lit "   ")
    (start (mkPending true (lit "   ")))
  = (Fulfilled tt, start (mkPending true (lit "   "))).
Proof.
  apply (handleSend_blank_draft Scenario.reliable Scenario.userNode (lit "   ")
           (start (mkPending true (lit "   ")))).
  reflexivity.
Defined.

(** The guard of [handleSend] fires for blank drafts only. *)
Lemma trimStart_not_blank s : blank s = false -> truthy (trimStart s) = true.
Proof.
  induction s as [|c s IH]; cbn; [discriminate|].
  destruct (is_whitespace c); cbn; auto.
Qed.

Lemma blank_rev s : blank (rev s) = blank s.
Proof.
  unfold blank. induction s as [|c s IH]; [reflexivity|].
  cbn [rev]. rewrite forallb_app, IH. cbn. rewrite andb_true_r. apply andb_comm.
Qed.

Lemma trimStart_blank_iff s : blank s = negb (truthy (trimStart s)).
Proof.
  destruct (blank s) eqn:E.
  - rewrite (blank_trimStart s E). reflexivity.
  - rewrite (trimStart_not_blank s E). reflexivity.
Qed.

Lemma blank_trimStart_same s : blank (trimStart s) = blank s.
Proof.
  induction s as [|c s IH]; [reflexivity|].
  cbn [trimStart]. destruct (is_whitespace c) eqn:E.
  - rewrite IH. cbn. rewrite E. reflexivity.
  - reflexivity.
Qed.

Lemma truthy_rev s : truthy (rev s) = truthy s.
Proof.
  destruct s as [|c s]; [reflexivity|]. cbn [rev truthy].
  destruct (rev s); reflexivity.
Qed.

Lemma trim_truthy s : truthy (trim s) = negb (blank s).
Proof.
  unfold trim, trimEnd. rewrite truthy_rev.
  rewrite <- (negb_involutive (truthy _)), <- trimStart_blank_iff.
  rewrite blank_rev, blank_trimStart_same. reflexivity.
Qed.

Lemma dispatch_user props :
  strict_eq (role props) "user" = true -> dispatch props = Some Edit.
Proof. unfold dispatch. intros ->. reflexivity. Qed.

(** Branch selection and the mutator of the role, when the role has one:
    the world [w2] the mutation command is sent in, and what follows. *)
Lemma selectThenMutate_run chrome props draft m w :
  dispatch props = Some m ->
  exists w1 w2 pre,
    selectBranch chrome props w = (Fulfilled tt, w1)
    /\ ensureVisible chrome props w1 = (Fulfilled tt, w2)
    /\ calls w2 = calls w ++ pre
    /\ navigation_only pre = true
    /\ pending w2 = pending w
    /\ selectThenMutate chrome props draft w = mutator chrome props draft m w1.
Proof.
  intros Hd.
  destruct (selectBranch_fulfils chrome props w) as (w1 & E1 & P1 & l1 & C1 & B1).
  destruct (ensureVisible_fulfils chrome props w1) as (w2 & E2 & P2 & l2 & C2 & N2).
  exists w1, w2, (l1 ++ l2). repeat split; try assumption.
  - rewrite C2, C1, app_assoc. reflexivity.
  - pose proof (branch_calls_navigation _ _ B1) as N1.
    unfold navigation_only in *. rewrite forallb_app, N1, N2. reflexivity.
  - congruence.
  - unfold selectThenMutate. cbn [bind Monad_Async]. rewrite E1, Hd. reflexivity.
Qed.

(** C2 (amended): with a draft that is not blank and a role that has a
    mutator, [handleSend] first runs [selectBranch] to completion; when
    [props.hidden] is unset that is the only run, when it is set the mutator
    runs [selectBranch] a second time; only then is the mutation command
    sent, nothing but the calls of these runs precedes it, and after it
    come only the settle delay and full refresh of the mutator (when the
    command completed) and the cleanup (when the send resolved with a
    response object), so the branch is not selected again. *)
Theorem handleSend_selects_then_mutates chrome props draft m w :
  truthy (trim draft) = true ->
  dispatch props = Some m ->
  exists w1 w2 pre,
    selectBranch chrome props w = (Fulfilled tt, w1)
    /\ (hidden props = false -> w2 = w1)
    /\ (hidden props = true ->
        selectBranch chrome props w1 = (Fulfilled tt, w2))
    /\ calls w2 = calls w ++ pre
    /\ navigation_only pre = true
    /\ calls (snd (handleSend chrome props draft w)) =
         calls w ++ pre ++ SendMessage (command_of props draft m) ::
         match respond chrome (calls w2) (command_of props draft m) with
         | Resolves r =>
             (if completed r then [SetTimeout 2000; RefreshNodes] else [])
             ++ [SetShowInput false; SetInputValue empty; RefreshNodes]
         | Rejects _ => []
         | ResolvesNullish => []
         end.
Proof.
  intros Ht Hd.
  destruct (selectThenMutate_run chrome props draft m w Hd)
    as (w1 & w2 & pre & E1 & E2 & C2 & N & P & R).
  rewrite (handleSend_run chrome props draft w Ht), R.
  rewrite (mutator_run chrome props draft m w1 w2 E2). cbv zeta.
  assert (Hvis : (hidden props = false -> w2 = w1)
                 /\ (hidden props = true ->
                     selectBranch chrome props w1 = (Fulfilled tt, w2))).
  { unfold ensureVisible in E2. destruct (hidden props).
    - split; [discriminate|]. intros _. exact E2.
    - split; [|discriminate]. intros _. unfold_async.
      cbn in E2. congruence. }
  destruct Hvis as [Hv1 Hv2].
  exists w1, w2, pre. repeat (split; [assumption|]).
  destruct (respond chrome (calls w2) (command_of props draft m)) as [r|reason|];
    [destruct (completed r)| |];
    cbn [snd calls]; rewrite C2, <- !app_assoc; reflexivity.
Qed.

Lemma handleSend_selects_then_mutates_witness :
  exists w1 w2 pre,
    selectBranch Scenario.reliable Scenario.hiddenUserNode
      (start Scenario.editing) = (Fulfilled tt, w1)
    /\ (hidden Scenario.hiddenUserNode = false -> w2 = w1)
    /\ (hidden Scenario.hiddenUserNode = true ->
        selectBranch Scenario.reliable Scenario.hiddenUserNode w1
        = (Fulfilled tt, w2))
    /\ calls w2 = calls (start Scenario.editing) ++ pre
    /\ navigation_only pre = true
    /\ calls (snd (handleSend Scenario.reliable Scenario.hiddenUserNode
                     Scenario.text (start Scenario.editing))) =
         calls (start Scenario.editing) ++ pre ++
         SendMessage (command_of Scenario.hiddenUserNode Scenario.text Edit) ::
         match respond Scenario.reliable (calls w2)
                 (command_of Scenario.hiddenUserNode Scenario.text Edit) with
         | Resolves r =>
             (if completed r then [SetTimeout 2000; RefreshNodes] else [])
             ++ [SetShowInput false; SetInputValue empty; RefreshNodes]
         | Rejects _ => []
         | ResolvesNullish => []
         end.
Proof.
  apply (handleSend_selects_then_mutates Scenario.reliable
           Scenario.hiddenUserNode Scenario.text Edit (start Scenario.editing));
    reflexivity.
Defined.

(** C2 as stated fails on a hidden node: [handleSend] selects the branch,
    and [editMessage] selects it again before it sends its command; the
    planner is asked twice and [executeSteps] is sent twice. *)
Lemma handleSend_hidden_selects_twice :
  truthy (trim Scenario.text) = true
  /\ hidden Scenario.hiddenUserNode = true
  /\ calls (snd (handleSend Scenario.reliable Scenario.hiddenUserNode
                   Scenario.text (start Scenario.editing)))
     = [OnNodeClick Scenario.node;
        SendMessage (ExecuteSteps [Scenario.step] true);
        OnRefresh;
        SendMessage (GoToTarget Scenario.node);
        OnNodeClick Scenario.node;
        SendMessage (ExecuteSteps [Scenario.step] true);
        OnRefresh;
        SendMessage (GoToTarget Scenario.node);
        SendMessage (EditMessage (Some Scenario.node) Scenario.text true);
        SetTimeout 2000; RefreshNodes;
        SetShowInput false; SetInputValue empty; RefreshNodes].
Proof. repeat split. Qed.

(** C4 (amended): role user, a draft that is not blank, a node that is not
    hidden and whose plan has
    one step, [executeSteps] and [editMessage] both resolving
    with [completed] set: after the planner query the calls of [handleSend] are,
    in this order and nothing else, the [executeSteps] send, the structural
    refresh, the [goToTarget] send, the [editMessage] send, the 2000 ms
    timer, the full refresh, the two state updates of the cleanup, and the
    full refresh again; the Pending Edit State ends closed and empty. *)
Theorem handleSend_user_edit_order chrome props draft w id step :
  truthy (trim draft) = true ->
  strict_eq (role props) "user" = true ->
  hidden props = false ->
  messageId props = Some id ->
  truthy id = true ->
  onNodeClick props (calls w) id = Some [step] ->
  let exec := ExecuteSteps [step] true in
  let goto := GoToTarget id in
  let edit := EditMessage (Some id) draft true in
  confirms (respond chrome (calls w ++ [OnNodeClick id]) exec) = true ->
  confirms (respond chrome
              (calls w ++ [OnNodeClick id; SendMessage exec; OnRefresh;
                           SendMessage goto]) edit) = true ->
  exists w', handleSend chrome props draft w = (Fulfilled tt, w')
    /\ calls w' = calls w ++
         [OnNodeClick id; SendMessage exec; OnRefresh; SendMessage goto;
          SendMessage edit; SetTimeout 2000; RefreshNodes;
          SetShowInput false; SetInputValue empty; RefreshNodes]
    /\ pending w' = mkPending false empty.
Proof.
  intros Ht Hrole Hhid Hid Htid Hplan exec goto edit Hexec Hedit.
  rewrite (handleSend_run chrome props draft w Ht).
  unfold selectThenMutate. cbn [bind Monad_Async].
  rewrite (selectBranch_planned chrome props w id [step] Hid Htid Hplan). cbv zeta.
  fold exec goto. rewrite Hexec, (dispatch_user props Hrole).
  match goal with |- context [mutator _ _ _ _ ?w1] =>
    rewrite (mutator_run chrome props draft Edit w1 w1)
  end.
  2:{ unfold ensureVisible. rewrite Hhid. reflexivity. }
  cbv zeta. cbn [calls console pending command_of]. rewrite Hid. fold edit.
  rewrite <- app_assoc. cbn [app]. 
  destruct (respond chrome _ edit) as [r|reason|]; cbn [confirms] in Hedit;
    [|discriminate|discriminate].
  rewrite Hedit. eexists. split; [reflexivity|]. cbn [calls pending].
  rewrite <- !app_assoc. split; reflexivity.
Qed.

Lemma handleSend_user_edit_order_witness :
  exists w', handleSend Scenario.reliable Scenario.userNode Scenario.text
               (start Scenario.editing) = (Fulfilled tt, w')
    /\ calls w' =
         [OnNodeClick Scenario.node;
          SendMessage (ExecuteSteps [Scenario.step] true);
          OnRefresh;
          SendMessage (GoToTarget Scenario.node);
          SendMessage (EditMessage (Some Scenario.node) Scenario.text true);
          SetTimeout 2000; RefreshNodes;
          SetShowInput false; SetInputValue empty; RefreshNodes]
    /\ pending w' = mkPending false empty.
Proof.
  apply (handleSend_user_edit_order Scenario.reliable Scenario.userNode
           Scenario.text (start Scenario.editing) Scenario.node Scenario.step);
    reflexivity.
Defined.

(** C4 as stated fails on a hidden node, everything else as in the
    scenario: [executeSteps] is not followed by one [goToTarget] and then
    [editMessage], the navigation pair is sent a second time first. *)
Lemma handleSend_hidden_edit_order :
  let run := handleSend Scenario.reliable Scenario.hiddenUserNode Scenario.text
               (start Scenario.editing) in
  let exec := ExecuteSteps [Scenario.step] true in
  let goto := GoToTarget Scenario.node in
  let edit := EditMessage (Some Scenario.node) Scenario.text true in
  strict_eq (role Scenario.hiddenUserNode) "user" = true
  /\ truthy (trim Scenario.text) = true
  /\ onNodeClick Scenario.hiddenUserNode [] Scenario.node = Some [Scenario.step]
  /\ sends (calls (snd run)) = [exec; goto; exec; goto; edit]
  /\ calls (snd run) <>
       [OnNodeClick Scenario.node; SendMessage exec; OnRefresh; SendMessage goto;
        SendMessage edit; SetTimeout 2000; RefreshNodes;
        SetShowInput false; SetInputValue empty; RefreshNodes].
Proof. cbv zeta. repeat split. discriminate. Qed.

(** C6 (amended): with a draft that is not blank, [handleSend] ends by
    closing the input, emptying the draft and calling the full refresh
    whenever the role has no mutator, and whenever the send of the role's
    mutation command resolves with a response object, whatever its
    [completed] flag; these three calls come after everything branch
    selection and the mutator did, a settle delay and full refresh of the
    mutator included.  [w1] and [w2] are the worlds after the branch
    selection of [handleSend] and after the one of the mutator. *)
Theorem handleSend_cleanup chrome props draft w w1 w2 :
  truthy (trim draft) = true ->
  selectBranch chrome props w = (Fulfilled tt, w1) ->
  ensureVisible chrome props w1 = (Fulfilled tt, w2) ->
  match dispatch props with
  | None =>
      handleSend chrome props draft w =
        (Fulfilled tt,
         mkWorld (calls w1 ++
                  [SetShowInput false; SetInputValue empty; RefreshNodes])
                 (console w1) (mkPending false empty))
  | Some m =>
      forall r,
        respond chrome (calls w2) (command_of props draft m) = Resolves r ->
        handleSend chrome props draft w =
          (Fulfilled tt,
           mkWorld (calls w2 ++
                    SendMessage (command_of props draft m) ::
                    (if completed r then [SetTimeout 2000; RefreshNodes]
                     else []) ++
                    [SetShowInput false; SetInputValue empty; RefreshNodes])
                   (if completed r then console w2
                    else console w2 ++
                         [mkLog (failure_label m) (LogValue (error r))])
                   (mkPending false empty))
  end.
Proof.
  intros Ht E1 E2.
  rewrite (handleSend_run chrome props draft w Ht).
  unfold selectThenMutate. cbn [bind Monad_Async]. rewrite E1.
  destruct (dispatch props) as [m|]; [|reflexivity].
  intros r Hr.
  rewrite (mutator_run chrome props draft m w1 w2 E2). cbv zeta. rewrite Hr.
  destruct (completed r); cbn [calls console pending];
    rewrite <- app_assoc; reflexivity.
Qed.

Lemma handleSend_cleanup_witness :
  handleSend Scenario.refusing Cases.visibleNoReference Scenario.text
    (start Scenario.editing) =
    (Fulfilled tt,
     mkWorld [SendMessage (EditMessage None Scenario.text true);
              SetShowInput false; SetInputValue empty; RefreshNodes]
             [mkLog "Edit message failed:" (LogValue (Some (lit "busy")))]
             (mkPending false empty))
  /\
  handleSend Scenario.unreachable Cases.systemNode Scenario.text
    (start Scenario.editing) =
    (Fulfilled tt,
     mkWorld [OnNodeClick Scenario.node;
              SetShowInput false; SetInputValue empty; RefreshNodes]
             [] (mkPending false empty)).
Proof.
  split.
  - apply (handleSend_cleanup Scenario.refusing Cases.visibleNoReference
             Scenario.text (start Scenario.editing) (start Scenario.editing)
             (start Scenario.editing) eq_refl eq_refl eq_refl
             Scenario.notDone).
    reflexivity.
  - apply (handleSend_cleanup Scenario.unreachable Cases.systemNode
             Scenario.text (start Scenario.editing)
             (record (OnNodeClick Scenario.node) (start Scenario.editing))
             (record (OnNodeClick Scenario.node) (start Scenario.editing)));
      reflexivity.
Defined.

(** The run behind the witness: the edit is refused, the mutator logs and
    stops, the cleanup and the final refresh still happen. *)
Example handleSend_edit_refused :
  handleSend Scenario.refusing Scenario.userNode Scenario.text
    (start Scenario.editing)
  = (Fulfilled tt,
     mkWorld [OnNodeClick Scenario.node;
              SendMessage (ExecuteSteps [Scenario.step] true);
              SendMessage (EditMessage (Some Scenario.node) Scenario.text true);
              SetShowInput false; SetInputValue empty; RefreshNodes]
             [mkLog "Error executing steps:"
                (LogError (ErrorObject "Background operation did not complete successfully"));
              mkLog "Edit message failed:" (LogValue (Some (lit "busy")))]
             (mkPending false empty)).
Proof. reflexivity. Qed.

(** C6 as stated fails when the mutation fails in transport: nothing
    catches the rejected send, the rejection leaves [handleSend], the
    Pending Edit State stays open with its draft and no refresh follows. *)
Lemma handleSend_mutation_rejected :
  handleSend Scenario.dropsMutation Scenario.userNode Scenario.text
    (start Scenario.editing)
  = (Threw (TransportError (lit "no receiver")),
     mkWorld [OnNodeClick Scenario.node;
              SendMessage (ExecuteSteps [Scenario.step] true);
              OnRefresh;
              SendMessage (GoToTarget Scenario.node);
              SendMessage (EditMessage (Some Scenario.node) Scenario.text true)]
             [] Scenario.editing).
Proof. reflexivity. Qed.

(** ** Transport failures in the Branch Selector *)

(** C7 (amended): when the [executeSteps] send or the [goToTarget] send of
    [selectBranch] rejects, the rejection is caught and logged as one
    console line, [selectBranch] completes normally, and the rejected send is
    its last call; the full refresh is not called; the structural refresh is
    not called when [executeSteps] rejects, and has been called once, before
    the send, when [goToTarget] rejects. *)
Theorem selectBranch_transport_failure chrome props w id steps reason :
  messageId props = Some id ->
  truthy id = true ->
  onNodeClick props (calls w) id = Some steps ->
  let asked := calls w ++ [OnNodeClick id] in
  let exec := ExecuteSteps steps true in
  let goto := GoToTarget id in
  respond chrome asked exec = Rejects reason
  \/ (confirms (respond chrome asked exec) = true
      /\ respond chrome (asked ++ [SendMessage exec; OnRefresh]) goto
         = Rejects reason) ->
  exists w', selectBranch chrome props w = (Fulfilled tt, w')
    /\ console w' = console w ++
         [mkLog "Error executing steps:" (LogError (TransportError reason))]
    /\ pending w' = pending w
    /\ (respond chrome asked exec = Rejects reason ->
        calls w' = asked ++ [SendMessage exec])
    /\ (confirms (respond chrome asked exec) = true ->
        calls w' = asked ++ [SendMessage exec; OnRefresh; SendMessage goto]).
Proof.
  intros Hid Ht Hplan asked exec goto Hfail.
  eexists. split.
  { apply (selectBranch_planned chrome props w id steps Hid Ht Hplan). }
  cbn [calls console pending]. fold asked exec goto.
  destruct Hfail as [Hexec | [Hexec Hgoto]].
  - rewrite Hexec. cbn [confirms branch_log]. repeat split.
    intros; discriminate.
  - destruct (respond chrome asked exec) as [r|e|] eqn:E; cbn [confirms] in Hexec;
      [|discriminate|discriminate].
    cbn [confirms branch_log]. rewrite Hexec, Hgoto. repeat split.
    intros; discriminate.
Qed.

Lemma selectBranch_transport_failure_witness :
  exists w', selectBranch Scenario.unreachable Scenario.userNode
               (start Scenario.editing) = (Fulfilled tt, w')
    /\ console w' =
         [mkLog "Error executing steps:"
                (LogError (TransportError (lit "no receiver")))]
    /\ pending w' = Scenario.editing
    /\ (respond Scenario.unreachable [OnNodeClick Scenario.node]
          (ExecuteSteps [Scenario.step] true) = Rejects (lit "no receiver") ->
        calls w' = [OnNodeClick Scenario.node;
                    SendMessage (ExecuteSteps [Scenario.step] true)])
    /\ (confirms (respond Scenario.unreachable [OnNodeClick Scenario.node]
                    (ExecuteSteps [Scenario.step] true)) = true ->
        calls w' = [OnNodeClick Scenario.node;
                    SendMessage (ExecuteSteps [Scenario.step] true);
                    OnRefresh; SendMessage (GoToTarget Scenario.node)]).
Proof.
  apply (selectBranch_transport_failure Scenario.unreachable Scenario.userNode
           (start Scenario.editing) Scenario.node [Scenario.step]
           (lit "no receiver")); try reflexivity.
  left. reflexivity.
Defined.

(** C7 as stated fails when it is [goToTarget] that rejects: the structural
    refresh has been called by then. *)
Lemma selectBranch_goto_rejected_after_refresh :
  respond Scenario.dropsGoTo
    [OnNodeClick Scenario.node; SendMessage (ExecuteSteps [Scenario.step] true);
     OnRefresh]
    (GoToTarget Scenario.node) = Rejects (lit "no receiver")
  /\ selectBranch Scenario.dropsGoTo Scenario.userNode (start Scenario.editing)
     = (Fulfilled tt,
        mkWorld [OnNodeClick Scenario.node;
                 SendMessage (ExecuteSteps [Scenario.step] true);
                 OnRefresh;
                 SendMessage (GoToTarget Scenario.node)]
                [mkLog "Error executing steps:"
                       (LogError (TransportError (lit "no receiver")))]
                Scenario.editing)
  /\ existsb is_refresh
       (calls (snd (selectBranch Scenario.dropsGoTo Scenario.userNode
                      (start Scenario.editing)))) = true.
Proof. repeat split. Qed.

(** * Further properties of the component *)

(** ** Branch selection, whatever the orchestrator and the planner do *)

Lemma selectBranch_cases chrome props w :
  selectBranch chrome props w = (Fulfilled tt, w)
  \/ (exists id, messageId props = Some id /\ truthy id = true
        /\ onNodeClick props (calls w) id = None
        /\ selectBranch chrome props w = (Fulfilled tt, record (OnNodeClick id) w))
  \/ (exists id steps, messageId props = Some id /\ truthy id = true
        /\ onNodeClick props (calls w) id = Some steps).
Proof.
  unfold selectBranch.
  destruct (messageId props) as [id|]; [|left; reflexivity].
  destruct (truthy id) eqn:Ht; cbn [negb]; [|left; reflexivity].
  unfold_async.
  destruct (onNodeClick props (calls w) id) as [steps|] eqn:Hp.
  - right. right. exists id, steps. auto.
  - right. left. exists id. auto.
Qed.

(** Everything a run of [selectBranch] can do, in numbers. *)
Lemma selectBranch_summary chrome props w :
  exists w' l lg,
    selectBranch chrome props w = (Fulfilled tt, w')
    /\ calls w' = calls w ++ l
    /\ console w' = console w ++ lg
    /\ pending w' = pending w
    /\ navigation_only l = true
    /\ List.length (sends l) <= 2
    /\ List.length (filter is_planner_query l) <= 1
    /\ List.length lg <= 1.
Proof.
  destruct (selectBranch_cases chrome props w)
    as [E | [(id & Hid & Ht & Hp & E) | (id & steps & Hid & Ht & Hp)]].
  - exists w, [], []. rewrite !app_nil_r. cbn. auto 10.
  - eexists. exists [OnNodeClick id], []. split; [exact E|].
    cbn. rewrite app_nil_r. auto 10.
  - rewrite (selectBranch_planned chrome props w id steps Hid Ht Hp). cbv zeta.
    eexists. eexists. eexists. split; [reflexivity|]. cbn [calls console pending].
    split; [rewrite <- app_assoc; reflexivity|].
    split; [reflexivity|]. split; [reflexivity|].
    destruct (respond chrome (calls w ++ [OnNodeClick id]) (ExecuteSteps steps true))
      as [r|reason|]; cbn [confirms branch_log].
    + destruct (completed r).
      * destruct (respond chrome _ (GoToTarget id)); cbn; auto.
      * cbn; auto.
    + cbn; auto.
    + cbn; auto.
Qed.

(** X1: [selectBranch] never rejects, whatever the orchestrator and the
    planner answer; it leaves the Pending Edit State alone, makes only
    branch-selection calls (no full refresh, timer, state update, tab or
    mutation command), asks the planner at most once, sends at most two
    commands and writes at most one console line. *)
Theorem selectBranch_contained chrome props w :
  exists w' l lg,
    selectBranch chrome props w = (Fulfilled tt, w')
    /\ calls w' = calls w ++ l
    /\ console w' = console w ++ lg
    /\ pending w' = pending w
    /\ navigation_only l = true
    /\ List.length (sends l) <= 2
    /\ List.length (filter is_planner_query l) <= 1
    /\ List.length lg <= 1.
Proof. apply selectBranch_summary. Qed.

Lemma app_same_nil {A} (l x : list A) : l ++ x = l <-> x = [].
Proof.
  split.
  - intros H. apply (app_inv_head l). rewrite app_nil_r. exact H.
  - intros ->. apply app_nil_r.
Qed.

(** X2: on a node with a plan, [selectBranch] writes nothing to the console
    exactly when the [executeSteps] send resolved with [completed] set and
    the [goToTarget] send resolved; every other outcome leaves one line. *)
Theorem selectBranch_silent_iff_selected chrome props w id steps :
  messageId props = Some id ->
  truthy id = true ->
  onNodeClick props (calls w) id = Some steps ->
  let asked := calls w ++ [OnNodeClick id] in
  let exec := ExecuteSteps steps true in
  console (snd (selectBranch chrome props w)) = console w
  <-> confirms (respond chrome asked exec) = true
      /\ delivered (respond chrome (asked ++ [SendMessage exec; OnRefresh])
                      (GoToTarget id)) = true.
Proof.
  intros Hid Ht Hp. cbv zeta.
  rewrite (selectBranch_planned chrome props w id steps Hid Ht Hp). cbv zeta.
  cbn [snd console]. rewrite app_same_nil.
  destruct (respond chrome (calls w ++ [OnNodeClick id]) (ExecuteSteps steps true))
    as [r|reason|]; cbn [confirms branch_log].
  - destruct (completed r).
    + destruct (respond chrome _ (GoToTarget id)); cbn [delivered];
        split; try tauto; try discriminate; intros [_ H]; discriminate.
    + split; [discriminate|]. intros [H _]; discriminate.
  - split; [discriminate|]. intros [H _]; discriminate.
  - split; [discriminate|]. intros [H _]; discriminate.
Qed.

Lemma selectBranch_silent_iff_selected_witness :
  console (snd (selectBranch Scenario.reliable Scenario.userNode
                  (start Scenario.editing))) = []
  <-> confirms (respond Scenario.reliable [OnNodeClick Scenario.node]
                  (ExecuteSteps [Scenario.step] true)) = true
      /\ delivered (respond Scenario.reliable
                      [OnNodeClick Scenario.node;
                       SendMessage (ExecuteSteps [Scenario.step] true);
                       OnRefresh]
                      (GoToTarget Scenario.node)) = true.
Proof.
  apply (selectBranch_silent_iff_selected Scenario.reliable Scenario.userNode
           (start Scenario.editing) Scenario.node [Scenario.step]);
    reflexivity.
Defined.

(** ** The Subchat Forker, in full *)

(** X3: [startSubchat] never rejects and never touches the Pending Edit
    State; it has no guard on the node reference, so it always sends exactly
    one command, [createSubchat] with [props.messageId] as it is (absent
    included); a tab is created exactly when that send resolved with
    [success] set. *)
Theorem startSubchat_contained chrome props w :
  exists w' l,
    startSubchat chrome props w = (Fulfilled tt, w')
    /\ calls w' = calls w ++ l
    /\ pending w' = pending w
    /\ sends l = [CreateSubchat (messageId props)]
    /\ existsb is_tab l =
         match respond chrome (calls w) (CreateSubchat (messageId props)) with
         | Resolves r => success r
         | Rejects _ => false
         | ResolvesNullish => false
         end.
Proof.
  unfold startSubchat. unfold_async.
  destruct (respond chrome (calls w) (CreateSubchat (messageId props)))
    as [r|reason|]; unfold_async.
  - destruct (success r); unfold_async.
    + eexists. eexists. split; [reflexivity|]. cbn [calls pending].
      rewrite <- app_assoc. repeat split.
    + eexists. exists [SendMessage (CreateSubchat (messageId props))].
      repeat split.
  - eexists. exists [SendMessage (CreateSubchat (messageId props))].
    repeat split.
  - eexists. exists [SendMessage (CreateSubchat (messageId props))].
    repeat split.
Qed.

(** X4: when the [createSubchat] send resolves with [success] set and a
    subchat identifier, for a node that has a reference, [startSubchat]
    creates one active tab, right after the send and without logging; its
    URL is the fixed prefix, the node reference, [&subchat_id=] and the
    subchat identifier of the answer. *)
Theorem startSubchat_opens_tab chrome props w r id sid :
  messageId props = Some id ->
  respond chrome (calls w) (CreateSubchat (Some id)) = Resolves r ->
  success r = true ->
  subchatId r = Some sid ->
  startSubchat chrome props w =
    (Fulfilled tt,
     mkWorld (calls w ++
              [SendMessage (CreateSubchat (Some id));
               TabsCreate
                 (lit "https://chatgpt.com/?subchat_parent=" ++ id
                  ++ lit "&subchat_id=" ++ sid)
                 true])
             (console w) (pending w)).
Proof.
  intros Hid Hr Hs Hsid. unfold startSubchat, subchatUrl. rewrite Hid.
  unfold_async. rewrite Hr. unfold_async.
  rewrite Hs, Hsid. unfold_async. rewrite <- app_assoc. reflexivity.
Qed.

Lemma startSubchat_opens_tab_witness :
  startSubchat Scenario.reliable Scenario.userNode (start Scenario.editing) =
    (Fulfilled tt,
     mkWorld [SendMessage (CreateSubchat (Some Scenario.node));
              TabsCreate
                (lit "https://chatgpt.com/?subchat_parent=m1&subchat_id=s1")
                true]
             [] Scenario.editing).
Proof.
  apply (startSubchat_opens_tab Scenario.reliable Scenario.userNode
           (start Scenario.editing) Scenario.done Scenario.node (lit "s1"));
    reflexivity.
Defined.

(** ** The mutators, in full *)

(** X5: when the mutation command resolves with [completed] set, the mutator
    completes normally without logging; after the optional branch selection
    its calls are the mutation send, the 2000 ms timer and then the full
    refresh, in this order. *)
Theorem mutator_completed chrome props draft m w w2 r :
  ensureVisible chrome props w = (Fulfilled tt, w2) ->
  respond chrome (calls w2) (command_of props draft m) = Resolves r ->
  completed r = true ->
  exists pre,
    calls w2 = calls w ++ pre
    /\ navigation_only pre = true
    /\ mutator chrome props draft m w =
         (Fulfilled tt,
          mkWorld (calls w ++ pre ++
                   [SendMessage (command_of props draft m);
                    SetTimeout 2000; RefreshNodes])
                  (console w2) (pending w)).
Proof.
  intros E R C.
  destruct (ensureVisible_fulfils chrome props w) as (w2' & E' & P & pre & Hc & Hn).
  rewrite E in E'. injection E' as <-.
  exists pre. repeat split; try assumption.
  rewrite (mutator_run chrome props draft m w w2 E). cbv zeta.
  rewrite R, C, Hc, P, <- app_assoc. reflexivity.
Qed.

Lemma mutator_completed_witness :
  exists pre,
    calls (snd (selectBranch Scenario.reliable Cases.hiddenAssistantNode
                  (start Scenario.editing)))
    = calls (start Scenario.editing) ++ pre
    /\ navigation_only pre = true
    /\ mutator Scenario.reliable Cases.hiddenAssistantNode Scenario.text Respond
         (start Scenario.editing) =
         (Fulfilled tt,
          mkWorld (calls (start Scenario.editing) ++ pre ++
                   [SendMessage (RespondToMessage (Some [lit "c1"; lit "c2"])
                                   Scenario.text true);
                    SetTimeout 2000; RefreshNodes])
                  [] Scenario.editing).
Proof.
  apply (mutator_completed Scenario.reliable Cases.hiddenAssistantNode
           Scenario.text Respond (start Scenario.editing)
           (snd (selectBranch Scenario.reliable Cases.hiddenAssistantNode
                   (start Scenario.editing)))
           Scenario.done);
    reflexivity.
Defined.

(** X6: when the send of the mutation command rejects, the mutator does not
    catch it: it rejects with that transport error, its last call is the
    rejected send, and it logs nothing, waits for nothing and refreshes
    nothing. *)
Theorem mutator_rejected chrome props draft m w w2 reason :
  ensureVisible chrome props w = (Fulfilled tt, w2) ->
  respond chrome (calls w2) (command_of props draft m) = Rejects reason ->
  exists pre,
    calls w2 = calls w ++ pre
    /\ navigation_only pre = true
    /\ mutator chrome props draft m w =
         (Threw (TransportError reason),
          mkWorld (calls w ++ pre ++ [SendMessage (command_of props draft m)])
                  (console w2) (pending w)).
Proof.
  intros E R.
  destruct (ensureVisible_fulfils chrome props w) as (w2' & E' & P & pre & Hc & Hn).
  rewrite E in E'. injection E' as <-.
  exists pre. repeat split; try assumption.
  rewrite (mutator_run chrome props draft m w w2 E). cbv zeta.
  rewrite R, Hc, P, <- app_assoc. reflexivity.
Qed.

Lemma mutator_rejected_witness :
  exists pre,
    calls (start Scenario.editing) = calls (start Scenario.editing) ++ pre
    /\ navigation_only pre = true
    /\ mutator Scenario.unreachable Scenario.userNode Scenario.text Edit
         (start Scenario.editing) =
         (Threw (TransportError (lit "no receiver")),
          mkWorld (calls (start Scenario.editing) ++ pre ++
                   [SendMessage (EditMessage (Some Scenario.node) Scenario.text true)])
                  [] Scenario.editing).
Proof.
  apply (mutator_rejected Scenario.unreachable Scenario.userNode Scenario.text
           Edit (start Scenario.editing) (start Scenario.editing)
           (lit "no receiver"));
    reflexivity.
Defined.

(** ** The send flow, in full *)

Lemma navigation_only_app a b :
  navigation_only (a ++ b) = navigation_only a && navigation_only b.
Proof. apply forallb_app. Qed.

Lemma navigation_only_no_mutation l :
  navigation_only l = true -> filter is_mutation (sends l) = [].
Proof.
  induction l as [|c l IH]; [reflexivity|].
  cbn [navigation_only forallb]. intros H. apply andb_true_iff in H.
  destruct H as [Hc Hl]. specialize (IH Hl).
  destruct c as [m| | | | | | |]; try discriminate; cbn; try exact IH.
  destruct m; try discriminate; cbn; exact IH.
Qed.

Lemma navigation_only_quiet l :
  navigation_only l = true ->
  filter is_full_refresh l = [] /\ filter is_state_update l = [].
Proof.
  induction l as [|c l IH]; [split; reflexivity|].
  cbn [navigation_only forallb]. intros H. apply andb_true_iff in H.
  destruct H as [Hc Hl]. specialize (IH Hl). destruct IH as [I1 I2].
  destruct c; try discriminate; cbn; auto.
Qed.

Lemma ensureVisible_summary chrome props w :
  exists w' l,
    ensureVisible chrome props w = (Fulfilled tt, w')
    /\ calls w' = calls w ++ l
    /\ pending w' = pending w
    /\ navigation_only l = true
    /\ List.length (sends l) <= 2
    /\ List.length (filter is_planner_query l) <= 1.
Proof.
  unfold ensureVisible. destruct (hidden props).
  - destruct (selectBranch_summary chrome props w)
      as (w' & l & lg & E & C & _ & P & N & S & Q & _).
    exists w', l. auto 10.
  - exists w, []. unfold_async. rewrite app_nil_r. cbn. auto 10.
Qed.

(** The whole of [handleSend] on a draft that is not blank. *)
Lemma handleSend_shape chrome props draft w :
  truthy (trim draft) = true ->
  exists w1 l1,
    selectBranch chrome props w = (Fulfilled tt, w1)
    /\ calls w1 = calls w ++ l1
    /\ pending w1 = pending w
    /\ navigation_only l1 = true
    /\ List.length (sends l1) <= 2
    /\ List.length (filter is_planner_query l1) <= 1
    /\ match dispatch props with
       | None =>
           handleSend chrome props draft w =
             (Fulfilled tt,
              mkWorld (calls w1 ++ cleanupCalls) (console w1)
                      (mkPending false empty))
       | Some m =>
           exists w2 l2,
             ensureVisible chrome props w1 = (Fulfilled tt, w2)
             /\ calls w2 = calls w1 ++ l2
             /\ pending w2 = pending w
             /\ navigation_only l2 = true
             /\ List.length (sends l2) <= 2
             /\ List.length (filter is_planner_query l2) <= 1
             /\ handleSend chrome props draft w =
                  match respond chrome (calls w2) (command_of props draft m) with
                  | Resolves r =>
                      (Fulfilled tt,
                       mkWorld
                         (calls w2 ++
                          SendMessage (command_of props draft m) ::
                          (if completed r then [SetTimeout 2000; RefreshNodes]
                           else []) ++ cleanupCalls)
                         (if completed r then console w2
                          else console w2 ++
                               [mkLog (failure_label m) (LogValue (error r))])
                         (mkPending false empty))
                  | Rejects reason =>
                      (Threw (TransportError reason),
                       mkWorld
                         (calls w2 ++ [SendMessage (command_of props draft m)])
                         (console w2) (pending w))
                  | ResolvesNullish =>
                      (Threw (TypeError "completed"),
                       mkWorld
                         (calls w2 ++ [SendMessage (command_of props draft m)])
                         (console w2) (pending w))
                  end
       end.
Proof.
  intros Ht.
  destruct (selectBranch_summary chrome props w)
    as (w1 & l1 & g1 & E1 & C1 & _ & P1 & N1 & S1 & Q1 & _).
  exists w1, l1. repeat (split; [assumption|]).
  rewrite (handleSend_run chrome props draft w Ht).
  unfold selectThenMutate. cbn [bind Monad_Async]. rewrite E1.
  destruct (dispatch props) as [m|]; [|reflexivity].
  destruct (ensureVisible_summary chrome props w1)
    as (w2 & l2 & E2 & C2 & P2 & N2 & S2 & Q2).
  exists w2, l2. split; [assumption|]. split; [assumption|].
  split; [congruence|]. repeat (split; [assumption|]).
  rewrite (mutator_run chrome props draft m w1 w2 E2). cbv zeta.
  destruct (respond chrome (calls w2) (command_of props draft m)) as [r|reason|].
  - destruct (completed r); cbn [calls console pending cleanupCalls app];
      rewrite <- app_assoc; reflexivity.
  - rewrite P2, P1. reflexivity.
  - rewrite P2, P1. reflexivity.
Qed.

(** X7: when the send of the mutation command rejects, [handleSend] rejects
    with that transport error; the rejected send is its last call, nothing
    is logged about it, and the cleanup is skipped: the Pending Edit State
    is what it was. *)
Theorem handleSend_rejection_propagates chrome props draft m w w1 w2 reason :
  truthy (trim draft) = true ->
  dispatch props = Some m ->
  selectBranch chrome props w = (Fulfilled tt, w1) ->
  ensureVisible chrome props w1 = (Fulfilled tt, w2) ->
  respond chrome (calls w2) (command_of props draft m) = Rejects reason ->
  handleSend chrome props draft w =
    (Threw (TransportError reason),
     mkWorld (calls w2 ++ [SendMessage (command_of props draft m)])
             (console w2) (pending w)).
Proof.
  intros Ht Hd E1 E2 R.
  destruct (handleSend_shape chrome props draft w Ht)
    as (w1' & l1 & E1' & _ & _ & _ & _ & _ & H).
  rewrite E1 in E1'. injection E1' as <-. rewrite Hd in H.
  destruct H as (w2' & l2 & E2' & _ & _ & _ & _ & _ & H).
  rewrite E2 in E2'. injection E2' as <-. rewrite R in H. exact H.
Qed.

Lemma handleSend_rejection_propagates_witness :
  handleSend Scenario.dropsMutation Cases.hiddenAssistantNode Scenario.text
    (start Scenario.editing) =
    (Threw (TransportError (lit "no receiver")),
     mkWorld (calls (snd (selectBranch Scenario.dropsMutation
                            Cases.hiddenAssistantNode
                            (snd (selectBranch Scenario.dropsMutation
                                    Cases.hiddenAssistantNode
                                    (start Scenario.editing)))))
              ++ [SendMessage (RespondToMessage (Some [lit "c1"; lit "c2"])
                                 Scenario.text true)])
             [] Scenario.editing).
Proof.
  apply (handleSend_rejection_propagates Scenario.dropsMutation
           Cases.hiddenAssistantNode Scenario.text Respond
           (start Scenario.editing)
           (snd (selectBranch Scenario.dropsMutation Cases.hiddenAssistantNode
                   (start Scenario.editing)))
           (snd (selectBranch Scenario.dropsMutation Cases.hiddenAssistantNode
                   (snd (selectBranch Scenario.dropsMutation
                           Cases.hiddenAssistantNode
                           (start Scenario.editing)))))
           (lit "no receiver"));
    reflexivity.
Defined.

(** The guard of [handleSend] on a blank draft. *)
Lemma handleSend_blank_draft_eq chrome props draft w :
  blank draft = true ->
  handleSend chrome props draft w = (Fulfilled tt, w).
Proof.
  intros Hb. unfold handleSend. rewrite (blank_trim draft Hb). reflexivity.
Qed.

(** X8: for a role that is neither 'user' nor 'assistant' (an absent role
    included), [handleSend] on a draft that is not blank selects the branch,
    sends no mutation command at all, and still closes the input, empties
    the draft and calls the full refresh: the draft is dropped unsent. *)
Theorem handleSend_other_role chrome props draft w :
  truthy (trim draft) = true ->
  strict_eq (role props) "user" = false ->
  strict_eq (role props) "assistant" = false ->
  exists w1 l1,
    selectBranch chrome props w = (Fulfilled tt, w1)
    /\ calls w1 = calls w ++ l1
    /\ handleSend chrome props draft w =
         (Fulfilled tt,
          mkWorld (calls w ++ l1 ++
                   [SetShowInput false; SetInputValue empty; RefreshNodes])
                  (console w1) (mkPending false empty))
    /\ filter is_mutation
         (sends (l1 ++ [SetShowInput false; SetInputValue empty; RefreshNodes]))
       = [].
Proof.
  intros Ht Hu Ha.
  destruct (handleSend_shape chrome props draft w Ht)
    as (w1 & l1 & E1 & C1 & _ & N1 & _ & _ & H).
  unfold dispatch in H. rewrite Hu, Ha in H.
  exists w1, l1. repeat split; try assumption.
  - rewrite H, C1, <- app_assoc. reflexivity.
  - rewrite sends_app, filter_app, (navigation_only_no_mutation l1 N1).
    reflexivity.
Qed.

Lemma handleSend_other_role_witness :
  exists w1 l1,
    selectBranch Scenario.reliable Cases.systemNode (start Scenario.editing)
    = (Fulfilled tt, w1)
    /\ calls w1 = calls (start Scenario.editing) ++ l1
    /\ handleSend Scenario.reliable Cases.systemNode Scenario.text
         (start Scenario.editing) =
         (Fulfilled tt,
          mkWorld (calls (start Scenario.editing) ++ l1 ++
                   [SetShowInput false; SetInputValue empty; RefreshNodes])
                  (console w1) (mkPending false empty))
    /\ filter is_mutation
         (sends (l1 ++ [SetShowInput false; SetInputValue empty; RefreshNodes]))
       = [].
Proof.
  apply (handleSend_other_role Scenario.reliable Cases.systemNode Scenario.text
           (start Scenario.editing));
    reflexivity.
Defined.

Lemma command_of_mutation props draft m :
  is_mutation (command_of props draft m) = true.
Proof. destruct m; reflexivity. Qed.

(** The mutation commands among the calls of [handleSend]. *)
Lemma handleSend_mutations chrome props draft m w :
  truthy (trim draft) = true ->
  dispatch props = Some m ->
  exists l,
    calls (snd (handleSend chrome props draft w)) = calls w ++ l
    /\ filter is_mutation (sends l) = [command_of props draft m].
Proof.
  intros Ht Hd.
  destruct (handleSend_shape chrome props draft w Ht)
    as (w1 & l1 & E1 & C1 & _ & N1 & _ & _ & H).
  rewrite Hd in H. destruct H as (w2 & l2 & E2 & C2 & _ & N2 & _ & _ & H).
  rewrite H.
  pose proof (navigation_only_no_mutation l1 N1) as M1.
  pose proof (navigation_only_no_mutation l2 N2) as M2.
  pose proof (command_of_mutation props draft m) as Hm.
  destruct (respond chrome (calls w2) (command_of props draft m)) as [r|reason|];
    cbn [snd calls]; rewrite C2, C1, <- !app_assoc.
  - eexists. split; [reflexivity|].
    rewrite !sends_app, !filter_app, M1, M2. cbn [app sends flat_map filter].
    rewrite Hm. destruct (completed r); reflexivity.
  - eexists. split; [reflexivity|].
    rewrite !sends_app, !filter_app, M1, M2. cbn [app sends flat_map filter].
    rewrite Hm. reflexivity.
  - eexists. split; [reflexivity|].
    rewrite !sends_app, !filter_app, M1, M2. cbn [app sends flat_map filter].
    rewrite Hm. reflexivity.
Qed.

(** X9: for role 'user' or 'assistant' and a draft that is not blank,
    [handleSend] sends exactly one mutation command, whatever the
    orchestrator answers and whether or not the node is hidden: the command
    of the role, carrying the draft as typed (not trimmed). *)
Theorem handleSend_one_mutation chrome props draft m w :
  truthy (trim draft) = true ->
  dispatch props = Some m ->
  exists l,
    calls (snd (handleSend chrome props draft w)) = calls w ++ l
    /\ filter is_mutation (sends l) = [command_of props draft m].
Proof. apply handleSend_mutations. Qed.

Lemma handleSend_one_mutation_witness :
  exists l,
    calls (snd (handleSend Scenario.refusing Scenario.hiddenUserNode
                  (lit "  padded  ") (start Scenario.editing)))
    = calls (start Scenario.editing) ++ l
    /\ filter is_mutation (sends l)
       = [EditMessage (Some Scenario.node) (lit "  padded  ") true].
Proof.
  apply (handleSend_one_mutation Scenario.refusing Scenario.hiddenUserNode
           (lit "  padded  ") Edit (start Scenario.editing));
    reflexivity.
Defined.

(** X10: the ways [handleSend] can end, the planner and the notifiers
    returning.  It completes with the world untouched when the draft is
    blank; it completes with the input closed, the draft emptied and the
    cleanup as its last three calls when the draft is not blank; and it
    rejects only on the send of its mutation command, which is then its last
    call: with the transport error when that send rejected, with the
    TypeError of reading [completed] when it resolved with no object.  When
    it rejects it has updated no state and called no full refresh, and the
    Pending Edit State is what it was. *)
Theorem handleSend_outcomes chrome props draft w :
  match handleSend chrome props draft w with
  | (Fulfilled _, w') =>
      (blank draft = true /\ w' = w)
      \/ (blank draft = false
          /\ pending w' = mkPending false empty
          /\ exists l, calls w' = calls w ++ l ++
               [SetShowInput false; SetInputValue empty; RefreshNodes])
  | (Threw e, w') =>
      blank draft = false
      /\ pending w' = pending w
      /\ exists m l,
           dispatch props = Some m
           /\ calls w' = calls w ++ l ++ [SendMessage (command_of props draft m)]
           /\ filter is_state_update l = []
           /\ filter is_full_refresh l = []
           /\ ((exists reason,
                  e = TransportError reason
                  /\ respond chrome (calls w ++ l) (command_of props draft m)
                     = Rejects reason)
               \/ (e = TypeError "completed"
                   /\ respond chrome (calls w ++ l) (command_of props draft m)
                      = ResolvesNullish))
  end.
Proof.
  destruct (blank draft) eqn:Hb.
  - rewrite (handleSend_blank_draft_eq chrome props draft w Hb). left. auto.
  - assert (Ht : truthy (trim draft) = true).
    { rewrite trim_truthy, Hb. reflexivity. }
    destruct (handleSend_shape chrome props draft w Ht)
      as (w1 & l1 & E1 & C1 & _ & N1 & _ & _ & H).
    destruct (dispatch props) as [m|].
    + destruct H as (w2 & l2 & E2 & C2 & _ & N2 & _ & _ & H). rewrite H.
      destruct (navigation_only_quiet l1 N1) as [F1 U1].
      destruct (navigation_only_quiet l2 N2) as [F2 U2].
      destruct (respond chrome (calls w2) (command_of props draft m))
        as [r|reason|] eqn:Hr.
      * right. split; [reflexivity|]. split; [reflexivity|].
        cbn [calls]. rewrite C2, C1.
        exists (l1 ++ l2 ++ SendMessage (command_of props draft m) ::
                (if completed r then [SetTimeout 2000; RefreshNodes] else [])).
        unfold cleanupCalls. destruct (completed r);
          rewrite <- ?app_assoc; cbn [app]; rewrite <- ?app_assoc; reflexivity.
      * split; [reflexivity|]. split; [reflexivity|].
        exists m, (l1 ++ l2). cbn [calls].
        rewrite C2, C1, <- !app_assoc in *.
        split; [reflexivity|]. split; [reflexivity|].
        rewrite !filter_app, F1, F2, U1, U2.
        split; [reflexivity|]. split; [reflexivity|].
        left. exists reason. split; [reflexivity|exact Hr].
      * split; [reflexivity|]. split; [reflexivity|].
        exists m, (l1 ++ l2). cbn [calls].
        rewrite C2, C1, <- !app_assoc in *.
        split; [reflexivity|]. split; [reflexivity|].
        rewrite !filter_app, F1, F2, U1, U2.
        split; [reflexivity|]. split; [reflexivity|].
        right. split; [reflexivity|exact Hr].
    + rewrite H. right. split; [reflexivity|]. split; [reflexivity|].
      exists l1. cbn [calls]. rewrite C1, <- app_assoc. reflexivity.
Qed.

Lemma handleSend_calls_unchanged chrome props draft w :
  calls (snd (handleSend chrome props draft w)) = calls w
  <-> blank draft = true.
Proof.
  split.
  - destruct (blank draft) eqn:Hb; [reflexivity|]. intros Hsame. exfalso.
    assert (Ht : truthy (trim draft) = true).
    { rewrite trim_truthy, Hb. reflexivity. }
    destruct (handleSend_shape chrome props draft w Ht)
      as (w1 & l1 & E1 & C1 & _ & _ & _ & _ & H).
    destruct (dispatch props) as [m|].
    + destruct H as (w2 & l2 & E2 & C2 & _ & _ & _ & _ & H). rewrite H in Hsame.
      destruct (respond chrome (calls w2) (command_of props draft m));
        cbn [snd calls] in Hsame; rewrite C2, C1, <- !app_assoc in Hsame;
        apply app_same_nil in Hsame;
        apply app_eq_nil in Hsame; destruct Hsame as [_ Hsame];
        apply app_eq_nil in Hsame; destruct Hsame as [_ Hsame];
        discriminate.
    + rewrite H in Hsame. cbn [snd calls] in Hsame.
      rewrite C1, <- app_assoc in Hsame. apply app_same_nil in Hsame.
      apply app_eq_nil in Hsame. destruct Hsame as [_ Hsame]. discriminate.
  - intros Hb. rewrite (handleSend_blank_draft_eq chrome props draft w Hb).
    reflexivity.
Qed.

(** X11: [handleSend] makes no call at all exactly when the draft is blank:
    on every other draft it calls at least one collaborator, whatever the
    props and the orchestrator. *)
Theorem handleSend_idle_iff_blank chrome props draft w :
  calls (snd (handleSend chrome props draft w)) = calls w
  <-> blank draft = true.
Proof. apply handleSend_calls_unchanged. Qed.

(** X12: bounds on one run of [handleSend], whatever the inputs: at most
    five commands are sent (two navigation pairs and one mutation command),
    the planner is asked at most twice, the full refresh is called at most
    twice and the state is updated at most twice. *)
Theorem handleSend_bounds chrome props draft w :
  exists l,
    calls (snd (handleSend chrome props draft w)) = calls w ++ l
    /\ List.length (sends l) <= 5
    /\ List.length (filter is_planner_query l) <= 2
    /\ List.length (filter is_full_refresh l) <= 2
    /\ List.length (filter is_state_update l) <= 2.
Proof.
  destruct (blank draft) eqn:Hb.
  - exists []. rewrite (handleSend_blank_draft_eq chrome props draft w Hb).
    cbn. rewrite app_nil_r. repeat split; lia.
  - assert (Ht : truthy (trim draft) = true).
    { rewrite trim_truthy, Hb. reflexivity. }
    destruct (handleSend_shape chrome props draft w Ht)
      as (w1 & l1 & E1 & C1 & _ & N1 & S1 & Q1 & H).
    destruct (navigation_only_quiet l1 N1) as [F1 U1].
    destruct (dispatch props) as [m|].
    + destruct H as (w2 & l2 & E2 & C2 & _ & N2 & S2 & Q2 & H). rewrite H.
      destruct (navigation_only_quiet l2 N2) as [F2 U2].
      destruct (respond chrome (calls w2) (command_of props draft m)) as [r|reason|];
        [destruct (completed r)| |];
        cbn [snd calls]; rewrite C2, C1, <- !app_assoc;
        (eexists; split; [reflexivity|]);
        rewrite !sends_app, !filter_app, !length_app, F1, F2, U1, U2;
        cbn; repeat split; lia.
    + rewrite H. cbn [snd calls]. rewrite C1, <- !app_assoc.
      eexists. split; [reflexivity|].
      rewrite !sends_app, !filter_app, !length_app, F1, U1.
      cbn. repeat split; lia.
Qed.

(** ** The rendered menu and its handlers *)

(** X13: whenever the input panel is rendered, its Send button is disabled
    exactly for the drafts on which [handleSend] does nothing: the button
    and the guard of the handler agree. *)
Theorem sendDisabled_iff_idle chrome props st panel w :
  inputPanel (render props st) = Some panel ->
  (sendDisabled panel = true
   <-> handleSend chrome props (value panel) w = (Fulfilled tt, w)).
Proof.
  unfold render. cbn [inputPanel]. destruct (showInput st); [|discriminate].
  intros E. injection E as <-. cbn [sendDisabled value].
  rewrite trim_truthy, negb_involutive. split.
  - apply handleSend_blank_draft_eq.
  - intros H. apply (handleSend_calls_unchanged chrome props (inputValue st) w).
    rewrite H. reflexivity.
Qed.

Lemma sendDisabled_iff_idle_witness :
  sendDisabled (mkPanel (lit " ") "Edit message..." true) = true
  <-> handleSend Scenario.reliable Scenario.userNode
        (value (mkPanel (lit " ") "Edit message..." true))
        (start (mkPending true (lit " ")))
      = (Fulfilled tt, start (mkPending true (lit " "))).
Proof.
  apply (sendDisabled_iff_idle Scenario.reliable Scenario.userNode
           (mkPending true (lit " ")) (mkPanel (lit " ") "Edit message..." true)
           (start (mkPending true (lit " ")))).
  reflexivity.
Defined.

(** X14: right after [handleActionClick] the menu shows the input panel
    with the prefilled draft; its Send button is enabled only for role
    'user' with a message that is not blank, and for every other role a
    send from that state does nothing. *)
Theorem handleActionClick_then_render props w :
  exists w' panel,
    handleActionClick props w = (Fulfilled tt, w')
    /\ inputPanel (render props (pending w')) = Some panel
    /\ value panel =
         (if strict_eq (role props) "user" then or_empty (message props)
          else empty)
    /\ sendDisabled panel =
         (if strict_eq (role props) "user"
          then blank (or_empty (message props)) else true)
    /\ (strict_eq (role props) "user" = false ->
        forall chrome, sendFromState chrome props w' = (Fulfilled tt, w')).
Proof.
  unfold handleActionClick, sendFromState.
  destruct (strict_eq (role props) "user") eqn:Hu; unfold_async;
    eexists; eexists; (split; [reflexivity|]);
    unfold render; cbn [pending showInput inputValue inputPanel value sendDisabled];
    (split; [reflexivity|]); (split; [reflexivity|]).
  - rewrite trim_truthy, negb_involutive. split; [reflexivity|discriminate].
  - split; [reflexivity|]. intros _ chrome. reflexivity.
Qed.

(** X15: what is sent is what was last typed: after the textarea changes
    to a text that is not blank, a send from the new state makes exactly
    one mutation command, carrying that text, whatever the draft or the
    prefill was before. *)
Theorem handleChange_then_send chrome props v m w :
  truthy (trim v) = true ->
  dispatch props = Some m ->
  exists l,
    calls (snd ((handleChange v ;; sendFromState chrome props) w))
    = calls w ++ SetInputValue v :: l
    /\ filter is_mutation (sends l) = [command_of props v m].
Proof.
  intros Ht Hd. unfold handleChange, sendFromState. unfold_async.
  match goal with |- context [handleSend chrome props v ?w1] =>
    destruct (handleSend_mutations chrome props v m w1 Ht Hd) as (l & C & M)
  end.
  exists l. split; [|exact M].
  rewrite C. cbn [calls]. rewrite <- app_assoc. reflexivity.
Qed.

Lemma handleChange_then_send_witness :
  exists l,
    calls (snd ((handleChange (lit "new reply") ;;
                 sendFromState Scenario.reliable Scenario.assistantNode)
                  (start (mkPending true empty))))
    = calls (start (mkPending true empty)) ++ SetInputValue (lit "new reply") :: l
    /\ filter is_mutation (sends l)
       = [RespondToMessage (Some [lit "c1"]) (lit "new reply") true].
Proof.
  apply (handleChange_then_send Scenario.reliable Scenario.assistantNode
           (lit "new reply") Respond (start (mkPending true empty)));
    reflexivity.
Defined.

(** X16: the keyboard path does not get round the Send button.  A key
    event makes no call unless it is Enter with the meta key held; and when
    the rendered Send button is disabled, Enter with the meta key makes no
    call either, although the handler never looks at the button. *)
Theorem handleKeyDown_respects_button chrome props st panel key metaKey w :
  inputPanel (render props st) = Some panel ->
  eqb key (lit "Enter") && metaKey = false \/ sendDisabled panel = true ->
  handleKeyDown chrome props (value panel) key metaKey w = (Fulfilled tt, w).
Proof.
  unfold render. cbn [inputPanel]. destruct (showInput st); [|discriminate].
  intros E. injection E as <-. cbn [sendDisabled value].
  unfold handleKeyDown. intros [Hk | Hd].
  - rewrite Hk. reflexivity.
  - destruct (eqb key (lit "Enter") && metaKey); [|reflexivity].
    rewrite trim_truthy, negb_involutive in Hd.
    rewrite (handleSend_blank_draft_eq chrome props (inputValue st) w Hd).
    reflexivity.
Qed.

Lemma handleKeyDown_respects_button_witness :
  handleKeyDown Scenario.reliable Scenario.userNode
    (value (mkPanel (lit " ") "Edit message..." true)) (lit "Enter") true
    (start (mkPending true (lit " ")))
  = (Fulfilled tt, start (mkPending true (lit " "))).
Proof.
  apply (handleKeyDown_respects_button Scenario.reliable Scenario.userNode
           (mkPending true (lit " ")) (mkPanel (lit " ") "Edit message..." true)
           (lit "Enter") true (start (mkPending true (lit " ")))).
  - reflexivity.
  - right. reflexivity.
Defined.

Lemma selectBranch_without_reference chrome props w :
  truthy_opt (messageId props) = false ->
  selectBranch chrome props w = (Fulfilled tt, w).
Proof.
  unfold selectBranch, truthy_opt.
  destruct (messageId props) as [id|]; [|reflexivity].
  intros ->. reflexivity.
Qed.

(** X17: the mutators have no guard on the node reference.  With an absent
    reference and a draft that is not blank, [handleSend] for role 'user'
    asks no planner and sends no navigation command, hidden or not, but
    still sends [editMessage], with an undefined [messageId], as its first
    call.  When that send resolves with a response object, the settle delay
    and full refresh follow only if [completed] is set, and the cleanup
    follows in both cases; when it rejects or resolves with no object, it
    is the last call. *)
Theorem handleSend_edit_without_reference chrome props draft w :
  truthy (trim draft) = true ->
  strict_eq (role props) "user" = true ->
  messageId props = None ->
  calls (snd (handleSend chrome props draft w)) =
    calls w ++
    SendMessage (EditMessage None draft true) ::
    match respond chrome (calls w) (EditMessage None draft true) with
    | Resolves r =>
        (if completed r then [SetTimeout 2000; RefreshNodes] else []) ++
        [SetShowInput false; SetInputValue empty; RefreshNodes]
    | Rejects _ => []
    | ResolvesNullish => []
    end.
Proof.
  intros Ht Hu Hid.
  assert (Hno : truthy_opt (messageId props) = false) by (rewrite Hid; reflexivity).
  destruct (handleSend_shape chrome props draft w Ht)
    as (w1 & l1 & E1 & _ & _ & _ & _ & _ & H).
  rewrite (selectBranch_without_reference chrome props w Hno) in E1.
  injection E1 as <-.
  rewrite (dispatch_user props Hu) in H.
  destruct H as (w2 & l2 & E2 & _ & _ & _ & _ & _ & H).
  assert (w2 = w) as ->.
  { unfold ensureVisible in E2. destruct (hidden props).
    - rewrite (selectBranch_without_reference chrome props w Hno) in E2.
      congruence.
    - cbn in E2. congruence. }
  rewrite H. cbn [command_of]. rewrite Hid.
  destruct (respond chrome (calls w) (EditMessage None draft true));
    reflexivity.
Qed.

Lemma handleSend_edit_without_reference_witness :
  calls (snd (handleSend Scenario.reliable Scenario.noNode Scenario.text
                (start Scenario.editing))) =
    [SendMessage (EditMessage None Scenario.text true);
     SetTimeout 2000; RefreshNodes;
     SetShowInput false; SetInputValue empty; RefreshNodes].
Proof.
  apply (handleSend_edit_without_reference Scenario.reliable Scenario.noNode
           Scenario.text (start Scenario.editing));
    reflexivity.
Defined.

(** X18: when the send of the role's mutation command resolves with no
    object (undefined or null), the read of [completed] throws and nothing
    catches it: [handleSend] rejects with that TypeError, the send is its
    last call, nothing is logged about it, and the cleanup is skipped, so
    the Pending Edit State is what it was. *)
Theorem handleSend_reply_without_object chrome props draft m w w1 w2 :
  truthy (trim draft) = true ->
  dispatch props = Some m ->
  selectBranch chrome props w = (Fulfilled tt, w1) ->
  ensureVisible chrome props w1 = (Fulfilled tt, w2) ->
  respond chrome (calls w2) (command_of props draft m) = ResolvesNullish ->
  handleSend chrome props draft w =
    (Threw (TypeError "completed"),
     mkWorld (calls w2 ++ [SendMessage (command_of props draft m)])
             (console w2) (pending w)).
Proof.
  intros Ht Hd E1 E2 R.
  destruct (handleSend_shape chrome props draft w Ht)
    as (w1' & l1 & E1' & _ & _ & _ & _ & _ & H).
  rewrite E1 in E1'. injection E1' as <-. rewrite Hd in H.
  destruct H as (w2' & l2 & E2' & _ & _ & _ & _ & _ & H).
  rewrite E2 in E2'. injection E2' as <-. rewrite R in H. exact H.
Qed.

Lemma handleSend_reply_without_object_witness :
  handleSend Cases.silent Cases.visibleNoReference Scenario.text
    (start Scenario.editing) =
    (Threw (TypeError "completed"),
     mkWorld [SendMessage (EditMessage None Scenario.text true)]
             [] Scenario.editing).
Proof.
  apply (handleSend_reply_without_object Cases.silent Cases.visibleNoReference
           Scenario.text Edit (start Scenario.editing) (start Scenario.editing)
           (start Scenario.editing));
    reflexivity.
Defined.
